(** * qlib.backtest.utils: trade calendar, infrastructure registries, range resolver

    A shallow embedding of [qlib/backtest/utils.py].  Methods that mutate
    [self] are computations in a state-and-exception monad whose state is the
    object (or the object store); a raised exception keeps the state reached
    so far, as in Python. *)

From Stdlib Require Import ZArith Lia.
From stdpp Require Import base gmap strings list.

Local Open Scope Z_scope.

(** ** Python outcomes *)

(** The exception classes that occur in the module, and a catch-all for
    whatever an external collaborator raises. *)
Inductive exn : Type :=
  | RuntimeError (msg : string)
  | NotImplementedError (msg : string)
  | IndexError
  | OutOfBoundsDatetime
  | AttributeError (name : string)
  | OtherError (cls msg : string).

Inductive Res (A : Type) : Type :=
  | Ok (a : A)
  | Raise (e : exn).
Arguments Ok {A} a.
Arguments Raise {A} e.

(** State-and-exception monad: the state survives a raise. *)
Definition M (S A : Type) : Type := S -> Res A * S.

Definition ret {S A} (a : A) : M S A := fun s => (Ok a, s).

Definition bind {S A B} (m : M S A) (k : A -> M S B) : M S B :=
  fun s => match m s with
           | (Ok a, s') => k a s'
           | (Raise e, s') => (Raise e, s')
           end.

Definition raise {S A} (e : exn) : M S A := fun s => (Raise e, s).
Definition gets {S A} (f : S -> A) : M S A := fun s => (Ok (f s), s).
Definition modify {S} (f : S -> S) : M S unit := fun s => (Ok tt, f s).
Definition lift {S A} (r : Res A) : M S A := fun s => (r, s).

(** [try: body except <class>: handler] *)
Definition try_except {S A} (body : M S A) (caught : exn -> bool)
    (handler : M S A) : M S A :=
  fun s => match body s with
           | (Raise e, s') => if caught e then handler s' else (Raise e, s')
           | r => r
           end.

Declare Scope py_scope.
Delimit Scope py_scope with py.
Notation "x <- y ; z" := (bind y (fun x => z))
  (at level 20, y at level 100, z at level 200, only parsing) : py_scope.
Notation "' x <- y ; z" := (bind y (fun x => z))
  (at level 20, x pattern, y at level 100, z at level 200, only parsing)
  : py_scope.
Notation "x ;; z" := (bind x (fun _ => z))
  (at level 100, z at level 200, only parsing, right associativity) : py_scope.
Local Open Scope py_scope.

(** [for x in l: body x] *)
Fixpoint for_each {S A} (l : list A) (body : A -> M S unit) : M S unit :=
  match l with
  | [] => ret tt
  | x :: l' => body x ;; for_each l' body
  end.

(** ** Timestamps and sequences *)

(** A [pd.Timestamp] is a count of nanoseconds in a signed 64-bit word, the
    least value of which is kept for [NaT]; [pd.Timedelta(seconds=n)] is [n]
    thousand million nanoseconds. *)
Definition Timestamp : Type := Z.
Definition Timedelta_seconds (n : Z) : Z := n * 1000000000.

Definition Timestamp_min : Timestamp := - 9223372036854775807.
Definition Timestamp_max : Timestamp := 9223372036854775807.

(** [t - delta] for a timestamp [t]: pandas raises [OutOfBoundsDatetime] when
    the difference leaves the representable range. *)
Definition timestamp_sub (t : Timestamp) (delta : Z) : Res Timestamp :=
  let r := t - delta in
  if (r <? Timestamp_min) || (Timestamp_max <? r) then Raise OutOfBoundsDatetime
  else Ok r.

(** What a caller may pass for [start_time] / [end_time]. *)
Inductive TimeLike : Type :=
  | TimeNone
  | TimeStr (s : string)
  | TimeStamp (t : Timestamp).

(** Python truth value of a [TimeLike]: [None] and the empty string are
    false. *)
Definition truthy (x : TimeLike) : bool :=
  match x with
  | TimeNone => false
  | TimeStr s => negb (bool_decide (s = EmptyString))
  | TimeStamp _ => true
  end.

(** [seq[i]] for a Python sequence: a negative index counts from the end, an
    index outside [-len, len) raises [IndexError]. *)
Definition py_getitem {A} (l : list A) (i : Z) : Res A :=
  let n := Z.of_nat (length l) in
  let j := if i <? 0 then i + n else i in
  if (j <? 0) || (n <=? j) then Raise IndexError
  else match l !! Z.to_nat j with
       | Some x => Ok x
       | None => Raise IndexError
       end.

(** ** TradeCalendarManager *)

Module Calendar.

Record TradeCalendarManager : Type := mkTCM {
  freq : string;
  start_time : option Timestamp;
  end_time : option Timestamp;
  _calendar : list Timestamp;
  start_index : Z;
  end_index : Z;
  trade_len : Z;
  trade_step : Z
}.

Definition set_freq (v : string) (m : TradeCalendarManager) :=
  mkTCM v (start_time m) (end_time m) (_calendar m) (start_index m)
        (end_index m) (trade_len m) (trade_step m).
Definition set_start_time (v : option Timestamp) (m : TradeCalendarManager) :=
  mkTCM (freq m) v (end_time m) (_calendar m) (start_index m)
        (end_index m) (trade_len m) (trade_step m).
Definition set_end_time (v : option Timestamp) (m : TradeCalendarManager) :=
  mkTCM (freq m) (start_time m) v (_calendar m) (start_index m)
        (end_index m) (trade_len m) (trade_step m).
Definition set__calendar (v : list Timestamp) (m : TradeCalendarManager) :=
  mkTCM (freq m) (start_time m) (end_time m) v (start_index m)
        (end_index m) (trade_len m) (trade_step m).
Definition set_start_index (v : Z) (m : TradeCalendarManager) :=
  mkTCM (freq m) (start_time m) (end_time m) (_calendar m) v
        (end_index m) (trade_len m) (trade_step m).
Definition set_end_index (v : Z) (m : TradeCalendarManager) :=
  mkTCM (freq m) (start_time m) (end_time m) (_calendar m) (start_index m)
        v (trade_len m) (trade_step m).
Definition set_trade_len (v : Z) (m : TradeCalendarManager) :=
  mkTCM (freq m) (start_time m) (end_time m) (_calendar m) (start_index m)
        (end_index m) v (trade_step m).
Definition set_trade_step (v : Z) (m : TradeCalendarManager) :=
  mkTCM (freq m) (start_time m) (end_time m) (_calendar m) (start_index m)
        (end_index m) (trade_len m) v.

Abbreviation TCM := (M TradeCalendarManager).

Section Methods.

(** The collaborators imported from the rest of qlib and from pandas.
    [parse_time] is [pd.Timestamp] on a non-empty string;
    [get_resam_calendar freq] yields the calendar, the resolved frequency and
    the sampling frequency; [locate_index start end freq freq_sam] is
    [Cal.locate_index] and yields two timestamps and the two indices. *)
Variable parse_time : string -> Res Timestamp.
Variable get_resam_calendar :
  string -> Res (list Timestamp * string * option string).
Variable locate_index :
  TimeLike -> TimeLike -> string -> option string ->
  Res (Timestamp * Timestamp * Z * Z).

(** [pd.Timestamp(x) if x else None]; [pd.Timestamp] of a timestamp is that
    timestamp. *)
Definition timestamp_or_none (x : TimeLike) : Res (option Timestamp) :=
  if truthy x then
    match x with
    | TimeStamp t => Ok (Some t)
    | TimeStr s => match parse_time s with
                   | Ok t => Ok (Some t)
                   | Raise e => Raise e
                   end
    | TimeNone => Ok None
    end
  else Ok None.

Definition reset (freq : string) (start_time end_time : TimeLike) : TCM unit :=
  modify (set_freq freq) ;;
  st <- lift (timestamp_or_none start_time) ;
  modify (set_start_time st) ;;
  et <- lift (timestamp_or_none end_time) ;
  modify (set_end_time et) ;;
  '(_calendar, freq, freq_sam) <- lift (get_resam_calendar freq) ;
  modify (set__calendar _calendar) ;;
  '(_, _, _start_index, _end_index) <-
      lift (locate_index start_time end_time freq freq_sam) ;
  modify (set_start_index _start_index) ;;
  modify (set_end_index _end_index) ;;
  modify (set_trade_len (_end_index - _start_index + 1)) ;;
  modify (set_trade_step 0).

(** [TradeCalendarManager(freq, start_time, end_time)]: [reset] on a new
    object.  A new object has no attribute yet; [reset] assigns all eight
    before it returns (and reads none), so the placeholder fields of
    [unset] never show in a constructed manager. *)
Definition unset : TradeCalendarManager :=
  mkTCM EmptyString None None [] 0 0 0 0.

Definition init (freq : string) (start_time end_time : TimeLike)
  : Res TradeCalendarManager :=
  match reset freq start_time end_time unset with
  | (Ok _, self) => Ok self
  | (Raise e, _) => Raise e
  end.

Definition finished : TCM bool :=
  gets (fun self => trade_step self >=? trade_len self).

Definition finished_msg : string :=
  "The calendar is finished, please reset it if you want to call it!".

Definition step : TCM unit :=
  fin <- finished ;
  if (fin : bool) then raise (RuntimeError finished_msg)
  else modify (fun self => set_trade_step (trade_step self + 1) self).

(** [n] calls of [step] in a row; the first raise ends the run. *)
Fixpoint step_times (n : nat) : TCM unit :=
  match n with
  | O => ret tt
  | S n' => step ;; step_times n'
  end.

Definition get_freq : TCM string := gets freq.
Definition get_trade_len : TCM Z := gets trade_len.
Definition get_trade_step : TCM Z := gets trade_step.

(** [get_step_time(self, trade_step=0, shift=0)]: an omitted argument is
    [None] here and takes the default of the signature. *)
Definition get_step_time (trade_step shift : option Z)
  : TCM (Timestamp * Timestamp) :=
  let trade_step := default 0 trade_step in
  let shift := default 0 shift in
  let trade_step := trade_step - shift in
  calendar_index <- gets (fun self => start_index self + trade_step) ;
  cal <- gets _calendar ;
  left <- lift (py_getitem cal calendar_index) ;
  next <- lift (py_getitem cal (calendar_index + 1)) ;
  right <- lift (timestamp_sub next (Timedelta_seconds 1)) ;
  ret (left, right).

Definition get_cur_step_time : TCM (Timestamp * Timestamp) :=
  cur <- get_trade_step ;
  get_step_time (Some cur) None.

Definition get_all_time : TCM (option Timestamp * option Timestamp) :=
  gets (fun self => (start_time self, end_time self)).

End Methods.

(** The cursor invariant of a manager. *)
Definition cursor_ok (m : TradeCalendarManager) : Prop :=
  0 <= trade_step m <= trade_len m.

End Calendar.

(** ** Infrastructure registries

    [BaseInfrastructure] and its two subclasses keep their slots as instance
    attributes, written with [setattr] and read with [hasattr] / [getattr].
    Registries are shared by reference, so the methods act on a store of
    instances.  [LevelInfrastructure.reset_cal], which acts on the calendar
    object behind a slot, is not embedded. *)

Module Registry.

Definition loc : Type := positive.

(** Python values as the registries see them: [None], a reference to a shared
    object, or a method bound to an instance. *)
Inductive PyObj : Type :=
  | PyNone
  | PyRef (l : loc)
  | PyBound (self : loc) (method : string).

Inductive InfraClass : Type :=
  | BaseInfrastructure
  | CommonInfrastructure
  | LevelInfrastructure.

(** An instance: its class and its [__dict__]. *)
Record Instance : Type := mkInstance {
  cls : InfraClass;
  attrs : gmap string PyObj
}.

(** The store of registry instances, shared by reference (every location
    holds one), and the warnings issued so far. *)
Record World : Type := mkWorld {
  heap : loc -> Instance;
  warned : list string
}.

(** [**kwargs] and dict displays: insertion-ordered, one binding per key. *)
Definition PyDict : Type := list (string * PyObj).

Fixpoint dict_set (d : PyDict) (k : string) (v : PyObj) : PyDict :=
  match d with
  | [] => [(k, v)]
  | (k', v') :: d' =>
      if decide (k' = k) then (k', v) :: d' else (k', v') :: dict_set d' k v
  end.

Definition store (l : loc) (o : Instance) (w : World) : World :=
  mkWorld (fun l' => if decide (l' = l) then o else heap w l') (warned w).

(** [warnings.warn(msg)] under the default filters: the message is
    recorded and the call returns. *)
Definition warnings_warn (msg : string) : M World unit :=
  modify (fun w => mkWorld (heap w) (warned w ++ [msg])).

Section Methods.

(** Attribute lookup on the class of an instance, for a name its
    [__dict__] does not hold: the methods of the class and what every
    Python object provides. *)
Variable class_getattr : InfraClass -> loc -> string -> option PyObj.

Definition lookup_attr (w : World) (self : loc) (name : string)
  : option PyObj :=
  match attrs (heap w self) !! name with
  | Some v => Some v
  | None => class_getattr (cls (heap w self)) self name
  end.

Definition hasattr (self : loc) (name : string) : M World bool :=
  gets (fun w => bool_decide (is_Some (lookup_attr w self name))).

Definition getattr (self : loc) (name : string) : M World PyObj :=
  found <- gets (fun w => lookup_attr w self name) ;
  match found with
  | Some v => ret v
  | None => raise (AttributeError name)
  end.

Definition setattr (self : loc) (name : string) (v : PyObj) : M World unit :=
  modify (fun w =>
    let o := heap w self in
    store self (mkInstance (cls o) (<[name := v]> (attrs o))) w).

(** [get_support_infra] as each class defines it. *)
Definition support_of (c : InfraClass) : Res (list string) :=
  match c with
  | BaseInfrastructure =>
      Raise (NotImplementedError "`get_support_infra` is not implemented!")
  | CommonInfrastructure => Ok ["trade_account"; "trade_exchange"]
  | LevelInfrastructure => Ok ["trade_calendar"; "sub_level_infra"]
  end.

(** Method dispatch on the class of [self]. *)
Definition get_support_infra (self : loc) : M World (list string) :=
  c <- gets (fun w => cls (heap w self)) ;
  lift (support_of c).

Definition ignored_msg (k : string) : string :=
  k +:+ " is ignored in `reset_infra`!".

Definition reset_infra (self : loc) (kwargs : PyDict) : M World unit :=
  support_infra <- get_support_infra self ;
  for_each kwargs (fun '(k, v) =>
    if bool_decide (k ∈ support_infra) then setattr self k v
    else warnings_warn (ignored_msg k)).

Definition get (self : loc) (infra_name : string) : M World PyObj :=
  held <- hasattr self infra_name ;
  if (held : bool) then getattr self infra_name
  else
    warnings_warn ("infra " +:+ infra_name +:+ " is not found!") ;;
    ret PyNone.

Definition has (self : loc) (infra_name : string) : M World bool :=
  support_infra <- get_support_infra self ;
  if bool_decide (infra_name ∈ support_infra) then
    held <- hasattr self infra_name ;
    if (held : bool) then ret true else ret false
  else ret false.

(** [{_infra: getattr(other, _infra) for _infra in support_infra
      if hasattr(other, _infra)}] *)
Fixpoint infra_dict_of (other : loc) (support_infra : list string)
    (acc : PyDict) : M World PyDict :=
  match support_infra with
  | [] => ret acc
  | _infra :: rest =>
      held <- hasattr other _infra ;
      if (held : bool) then
        v <- getattr other _infra ;
        infra_dict_of other rest (dict_set acc _infra v)
      else infra_dict_of other rest acc
  end.

Definition update (self other : loc) : M World unit :=
  support_infra <- get_support_infra other ;
  infra_dict <- infra_dict_of other support_infra [] ;
  reset_infra self infra_dict.

Definition set_sub_level_infra (self : loc) (sub_level_infra : PyObj)
  : M World unit :=
  reset_infra self [("sub_level_infra", sub_level_infra)].

End Methods.

End Registry.

(** ** Range resolver *)

Module Resolver.

Import Calendar.

(** The outer trade decision, seen through the one method the resolver
    calls. *)
Record BaseTradeDecision : Type := mkDecision {
  get_range_limit : Res (Z * Z)
}.

Definition is_NotImplementedError (e : exn) : bool :=
  match e with
  | NotImplementedError _ => true
  | _ => false
  end.

(** The state is the [trade_calendar] argument. *)
Definition get_start_end_idx (outer_trade_decision : BaseTradeDecision)
  : TCM (Z * Z) :=
  try_except
    (lift (get_range_limit outer_trade_decision))
    is_NotImplementedError
    (n <- get_trade_len ; ret (0, n - 1)).

End Resolver.

(** ** A concrete daily calendar

    Eight consecutive daily bars and a location service that finds the first
    bar at or after [start_time] and the last bar at or before [end_time]. *)

Module Daily.

Import Calendar.

Definition day (n : Z) : Timestamp := n * 86400 * 1000000000.

Definition bars : list Timestamp := day <$> [0; 1; 2; 3; 4; 5; 6; 7].

(** Modelled from the spec: [pd.Timestamp] on a string, which pandas
    provides; this instance parses nothing, the managers below are built
    from timestamps. *)
Definition parse_time (s : string) : Res Timestamp :=
  Raise (OtherError "ValueError" s).

(** Modelled from the spec: the calendar resampling service
    ([qlib.utils.resam.get_resam_calendar]), an instance that answers with
    the eight bars at every frequency. *)
Definition get_resam_calendar (freq : string)
  : Res (list Timestamp * string * option string) :=
  Ok (bars, freq, None).

Definition count_if (p : Timestamp -> bool) (l : list Timestamp) : Z :=
  Z.of_nat (length (filter (fun t => p t = true) l)).

(** Modelled from the spec: the location service ([Cal.locate_index]), an
    instance over the eight bars.  The start is located at the first bar at
    or after [start_time], and a start after the last bar raises
    [IndexError]; the end is located at the last bar at or before
    [end_time], and at the last bar of the calendar when there is none.  A
    bound that is [None] compares with no bar, so it locates the first bar as
    start and the last bar as end.  The two located indices are not
    compared. *)
Definition locate_start (start_time : option Timestamp) : Res (Timestamp * Z) :=
  let k := match start_time with
           | Some s => count_if (fun t => t <? s) bars
           | None => 0
           end in
  match bars !! Z.to_nat k with
  | Some t => Ok (t, k)
  | None => Raise IndexError
  end.

Definition locate_end (end_time : option Timestamp) : Res (Timestamp * Z) :=
  let n := Z.of_nat (length bars) in
  let k := match end_time with
           | Some e => count_if (fun t => t <=? e) bars
           | None => n
           end in
  let j := if k =? 0 then n - 1 else k - 1 in
  match bars !! Z.to_nat j with
  | Some t => Ok (t, j)
  | None => Raise IndexError
  end.

Definition as_timestamp (x : TimeLike) : Res (option Timestamp) :=
  match x with
  | TimeNone => Ok None
  | TimeStr s => match parse_time s with
                 | Ok t => Ok (Some t)
                 | Raise e => Raise e
                 end
  | TimeStamp t => Ok (Some t)
  end.

Definition locate_index (start_time end_time : TimeLike) (freq : string)
    (freq_sam : option string) : Res (Timestamp * Timestamp * Z * Z) :=
  match as_timestamp start_time with
  | Raise e => Raise e
  | Ok s =>
      match as_timestamp end_time with
      | Raise e => Raise e
      | Ok e =>
          match locate_start s with
          | Raise err => Raise err
          | Ok (t1, i) =>
              match locate_end e with
              | Raise err => Raise err
              | Ok (t2, j) => Ok (t1, t2, i, j)
              end
          end
      end
  end.

(** Five bars, [day 1] to [day 5]. *)
Definition five_days : Res TradeCalendarManager :=
  init parse_time get_resam_calendar locate_index
       "day" (TimeStamp (day 1)) (TimeStamp (day 5)).

(** The manager that construction yields, and the one an inverted range
    ([start_time] after [end_time]) yields. *)
Definition five_days_state : TradeCalendarManager :=
  mkTCM "day" (Some (day 1)) (Some (day 5)) bars 1 5 5 0.

Definition inverted_state : TradeCalendarManager :=
  mkTCM "day" (Some (day 5)) (Some (day 2)) bars 5 2 (-2) 0.

End Daily.

(** ** Concrete registries

    Three registries in a store: a [CommonInfrastructure] at 1 that holds a
    trade account, an empty [LevelInfrastructure] at 2 and an empty
    [CommonInfrastructure] everywhere else. *)

Module Desk.

Import Registry.

(** The methods the module defines on each class, found by attribute lookup
    as bound methods. *)
Definition methods (c : InfraClass) : list string :=
  ["__init__"; "get_support_infra"; "reset_infra"; "get"; "has"; "update"] ++
  match c with
  | LevelInfrastructure => ["reset_cal"; "set_sub_level_infra"]
  | _ => []
  end.

Definition class_getattr (c : InfraClass) (self : loc) (name : string)
  : option PyObj :=
  if bool_decide (name ∈ methods c) then Some (PyBound self name) else None.

Definition objects (l : loc) : Instance :=
  if decide (l = 1%positive) then
    mkInstance CommonInfrastructure {[ "trade_account" := PyRef 10%positive ]}
  else if decide (l = 2%positive) then mkInstance LevelInfrastructure ∅
  else mkInstance CommonInfrastructure ∅.

Definition world : World := mkWorld objects [].

End Desk.

(** ** A calendar at the lower end of the timestamps

    Its first bar is the earliest timestamp there is, and the second bar
    comes half a second later. *)

Module Early.

Import Calendar.

Definition bars : list Timestamp :=
  [Timestamp_min; Timestamp_min + 500000000; Timestamp_min + 1000000000;
   Timestamp_min + 1500000000].


End Early.

(** ** Calendars whose bars are at least one second apart *)

Module Spacing.

(** Each entry is at least one second before the next one. *)
Fixpoint bars_spaced (l : list Timestamp) : bool :=
  match l with
  | a :: (b :: _) as rest => (a + Timedelta_seconds 1 <=? b) && bars_spaced rest
  | _ => true
  end.

End Spacing.

(** ** Construction of registries, and the calendar behind a level

    [LevelInfrastructure.reset_cal] reaches the calendar object its
    [trade_calendar] slot refers to.  Calendar objects live in the same
    address space as the registries: [calendars s !! l = Some m] says that the
    object at [l] is a [TradeCalendarManager] in state [m]. *)

Module Levels.

Import Calendar Registry.

(** The warning of [get] for a name it does not find. *)
Definition not_found_msg (k : string) : string :=
  "infra " +:+ k +:+ " is not found!".

(** [BaseInfrastructure.__init__(self, **kwargs)], run on the new instance
    [self]. *)
Definition __init__ (self : loc) (kwargs : PyDict) : M World unit :=
  reset_infra self kwargs.

Record Store : Type := mkStore {
  infra : World;
  calendars : gmap loc TradeCalendarManager
}.

(** A registry method run inside the larger store. *)
Definition on_infra {A} (c : M World A) : M Store A :=
  fun s => match c (infra s) with
           | (r, w') => (r, mkStore w' (calendars s))
           end.

Section Methods.

Variable class_getattr : InfraClass -> loc -> string -> option PyObj.
Variable parse_time : string -> Res Timestamp.
Variable get_resam_calendar :
  string -> Res (list Timestamp * string * option string).
Variable locate_index :
  TimeLike -> TimeLike -> string -> option string ->
  Res (Timestamp * Timestamp * Z * Z).

(** [obj.reset(freq, start_time=start_time, end_time=end_time)]: the method
    exists when [obj] is a calendar; [None], a bound method and a registry
    have no attribute [reset]. *)
Definition call_reset (obj : PyObj) (freq : string)
    (start_time end_time : TimeLike) : M Store unit :=
  fun s =>
    match obj with
    | PyRef l =>
        match calendars s !! l with
        | Some m =>
            match reset parse_time get_resam_calendar locate_index
                        freq start_time end_time m with
            | (r, m') => (r, mkStore (infra s) (<[l := m']> (calendars s)))
            end
        | None => (Raise (AttributeError "reset"), s)
        end
    | _ => (Raise (AttributeError "reset"), s)
    end.

(** [TradeCalendarManager(freq, start_time=start_time, end_time=end_time)];
    [new] is the identity the new object gets.  When the constructor raises,
    no object is left behind. *)
Definition new_calendar (new : loc) (freq : string)
    (start_time end_time : TimeLike) : M Store PyObj :=
  fun s =>
    match init parse_time get_resam_calendar locate_index
               freq start_time end_time with
    | Ok m => (Ok (PyRef new), mkStore (infra s) (<[new := m]> (calendars s)))
    | Raise e => (Raise e, s)
    end.

Definition reset_cal (new : loc) (self : loc) (freq : string)
    (start_time end_time : TimeLike) : M Store unit :=
  held <- on_infra (has class_getattr self "trade_calendar") ;
  if (held : bool) then
    cal <- on_infra (get class_getattr self "trade_calendar") ;
    call_reset cal freq start_time end_time
  else
    cal <- new_calendar new freq start_time end_time ;
    on_infra (reset_infra self [("trade_calendar", cal)]).

End Methods.

End Levels.

(** The registries of [Desk] with two more: a level registry at 5 that
    holds the five-day calendar, which is the object at 20, and at 9 an
    instance of the base class itself, as the constructor sees it. *)

Module Floor.

Import Calendar Registry Levels.

Definition objects (l : loc) : Instance :=
  if decide (l = 5%positive) then
    mkInstance LevelInfrastructure {[ "trade_calendar" := PyRef 20%positive ]}
  else if decide (l = 9%positive) then mkInstance BaseInfrastructure ∅
  else Desk.objects l.

Definition store : Store :=
  mkStore (mkWorld objects []) {[ 20%positive := Daily.five_days_state ]}.

End Floor.

(** * Properties *)

Module CalendarFacts.

Import Calendar.

Lemma finished_eq m :
  finished m = (Ok (trade_step m >=? trade_len m), m).
Proof. reflexivity. Qed.

Lemma finished_true_iff m :
  finished m = (Ok true, m) <-> trade_len m <= trade_step m.
Proof.
  rewrite finished_eq. split.
  - intros H. injection H as H. apply Z.geb_le in H. lia.
  - intros H. do 2 f_equal. apply Z.geb_le. lia.
Qed.

Lemma finished_false_iff m :
  finished m = (Ok false, m) <-> trade_step m < trade_len m.
Proof.
  rewrite finished_eq. split.
  - intros H. injection H as H.
    destruct (Z.geb_spec (trade_step m) (trade_len m)); [discriminate | lia].
  - intros H. do 2 f_equal.
    destruct (Z.geb_spec (trade_step m) (trade_len m)); [lia | reflexivity].
Qed.

Lemma step_running m :
  trade_step m < trade_len m ->
  step m = (Ok tt, set_trade_step (trade_step m + 1) m).
Proof.
  intros H. apply finished_false_iff in H.
  unfold step, bind. rewrite H. reflexivity.
Qed.

Lemma step_stopped m :
  trade_len m <= trade_step m ->
  step m = (Raise (RuntimeError finished_msg), m).
Proof.
  intros H. apply finished_true_iff in H.
  unfold step, bind. rewrite H. reflexivity.
Qed.

Lemma step_times_running n : forall m,
  trade_step m + Z.of_nat n <= trade_len m ->
  step_times n m = (Ok tt, set_trade_step (trade_step m + Z.of_nat n) m).
Proof.
  induction n as [|n IH]; intros m H.
  - destruct m. cbn. unfold ret, set_trade_step. cbn. do 2 f_equal. lia.
  - cbn [step_times]. unfold bind. rewrite step_running by lia.
    rewrite IH by (cbn; lia). unfold set_trade_step. cbn. do 2 f_equal. lia.
Qed.

(** C2. [step] raises exactly when [finished] holds; otherwise it returns and
    the only attribute that changes is [trade_step], which grows by one. *)
Theorem step_raises_iff_finished m :
  ((exists e, fst (step m) = Raise e) <-> fst (finished m) = Ok true) /\
  (fst (finished m) = Ok false ->
   step m = (Ok tt, mkTCM (freq m) (start_time m) (end_time m) (_calendar m)
                          (start_index m) (end_index m) (trade_len m)
                          (trade_step m + 1))).
Proof.
  rewrite finished_eq. cbn [fst].
  destruct (Z.geb_spec (trade_step m) (trade_len m)) as [Hge|Hlt].
  - rewrite step_stopped by lia. cbn [fst]. split.
    + split; [reflexivity | eauto].
    + discriminate.
  - rewrite step_running by lia. cbn [fst]. split.
    + split; [intros [e He]; discriminate | discriminate].
    + reflexivity.
Qed.

Lemma step_raises_iff_finished_witness :
  fst (finished Daily.five_days_state) = Ok false /\
  step Daily.five_days_state =
    (Ok tt, mkTCM "day" (Some (Daily.day 1)) (Some (Daily.day 5)) Daily.bars
                  1 5 5 1) /\
  (fst (finished (set_trade_step 5 Daily.five_days_state)) = Ok true ->
   exists e, fst (step (set_trade_step 5 Daily.five_days_state)) = Raise e).
Proof.
  split; [reflexivity | split].
  - apply (proj2 (step_raises_iff_finished Daily.five_days_state)).
    reflexivity.
  - apply (proj1 (step_raises_iff_finished
                    (set_trade_step 5 Daily.five_days_state))).
Defined.

(** C10 (the claim as stated fails).  The manager built with [start_time]
    three bars after [end_time] is finished from the start, with the cursor
    at 0 and [trade_len] at -2.  [step] raises and leaves it so: the cursor
    does not equal [trade_len]. *)
Lemma step_finished_cursor_is_not_trade_len :
  init Daily.parse_time Daily.get_resam_calendar Daily.locate_index
       "day" (TimeStamp (Daily.day 5)) (TimeStamp (Daily.day 2)) =
    Ok Daily.inverted_state /\
  fst (finished Daily.inverted_state) = Ok true /\
  step Daily.inverted_state =
    (Raise (RuntimeError finished_msg), Daily.inverted_state) /\
  trade_step (snd (step Daily.inverted_state)) = 0 /\
  trade_len (snd (step Daily.inverted_state)) = -2 /\
  trade_step (snd (step Daily.inverted_state)) <>
  trade_len (snd (step Daily.inverted_state)).
Proof.
  repeat split; try reflexivity. cbn. discriminate.
Qed.

(** C10 (as amended).  [step] on a finished manager raises before it assigns
    anything: the manager is left exactly as it was, and is still finished,
    with the cursor at or above [trade_len]; the cursor equals [trade_len]
    whenever it was not above [trade_len] before the call. *)
Theorem step_finished_keeps_state m :
  fst (finished m) = Ok true ->
  step m = (Raise (RuntimeError finished_msg), m) /\
  finished (snd (step m)) = (Ok true, m) /\
  trade_len (snd (step m)) <= trade_step (snd (step m)) /\
  (trade_step m <= trade_len m ->
   trade_step (snd (step m)) = trade_len (snd (step m))).
Proof.
  rewrite finished_eq. cbn [fst]. intros H. injection H as H.
  apply Z.geb_le in H.
  rewrite step_stopped by lia. cbn [snd]. split; [reflexivity|].
  split; [apply finished_true_iff; lia|]. split; lia.
Qed.

Lemma step_finished_keeps_state_witness :
  fst (finished (set_trade_step 5 Daily.five_days_state)) = Ok true /\
  step (set_trade_step 5 Daily.five_days_state) =
    (Raise (RuntimeError finished_msg), set_trade_step 5 Daily.five_days_state) /\
  finished (snd (step (set_trade_step 5 Daily.five_days_state))) =
    (Ok true, set_trade_step 5 Daily.five_days_state) /\
  trade_len (snd (step (set_trade_step 5 Daily.five_days_state))) <=
    trade_step (snd (step (set_trade_step 5 Daily.five_days_state))) /\
  (trade_step (set_trade_step 5 Daily.five_days_state) <=
     trade_len (set_trade_step 5 Daily.five_days_state) ->
   trade_step (snd (step (set_trade_step 5 Daily.five_days_state))) =
     trade_len (snd (step (set_trade_step 5 Daily.five_days_state)))).
Proof.
  split; [reflexivity|].
  apply (step_finished_keeps_state (set_trade_step 5 Daily.five_days_state)).
  reflexivity.
Defined.

(** C1 (the claim as stated fails).  After one step of the five-day manager
    the cursor is 1; [get_step_time()] still answers for step 0, while
    [get_step_time(trade_step=1)] answers for step 1. *)
Lemma get_step_time_default_is_not_cursor :
  Daily.five_days = Ok Daily.five_days_state /\
  step Daily.five_days_state = (Ok tt, set_trade_step 1 Daily.five_days_state) /\
  get_step_time None None (set_trade_step 1 Daily.five_days_state) =
    (Ok (Daily.day 1, Daily.day 2 - 1000000000),
     set_trade_step 1 Daily.five_days_state) /\
  get_step_time (Some (trade_step (set_trade_step 1 Daily.five_days_state)))
                None (set_trade_step 1 Daily.five_days_state) =
    (Ok (Daily.day 2, Daily.day 3 - 1000000000),
     set_trade_step 1 Daily.five_days_state) /\
  get_step_time None None (set_trade_step 1 Daily.five_days_state) <>
  get_step_time (Some (trade_step (set_trade_step 1 Daily.five_days_state)))
                None (set_trade_step 1 Daily.five_days_state).
Proof.
  repeat split; try reflexivity. vm_compute. discriminate.
Qed.

(** C1 (as amended).  An omitted [trade_step] is the constant 0 of the
    signature, whatever the cursor is; the cursor enters only through
    [get_cur_step_time], which is [get_step_time(trade_step=cursor, shift=0)]. *)
Theorem get_step_time_default_step m shift :
  get_step_time None shift m = get_step_time (Some 0) shift m /\
  get_cur_step_time m = get_step_time (Some (trade_step m)) (Some 0) m.
Proof. split; reflexivity. Qed.

(** C4. A shift is pure reindexing: [get_step_time(s, shift)] is
    [get_step_time(s - shift, 0)], result and exception alike. *)
Theorem get_step_time_shift m s shift :
  get_step_time (Some s) (Some shift) m =
  get_step_time (Some (s - shift)) (Some 0) m.
Proof.
  unfold get_step_time. cbn [default]. rewrite Z.sub_0_r. reflexivity.
Qed.

Example get_step_time_shift_five_days :
  get_step_time (Some 2) (Some 1) Daily.five_days_state =
    (Ok (Daily.day 2, Daily.day 3 - 1000000000), Daily.five_days_state) /\
  get_step_time (Some 1) (Some 0) Daily.five_days_state =
    (Ok (Daily.day 2, Daily.day 3 - 1000000000), Daily.five_days_state).
Proof. split; reflexivity. Qed.

Lemma py_getitem_in_range {A} (l : list A) (i : Z) :
  0 <= i < Z.of_nat (length l) ->
  exists x, l !! Z.to_nat i = Some x /\ py_getitem l i = Ok x.
Proof.
  intros [H0 H1]. unfold py_getitem. cbv zeta.
  destruct (Z.ltb_spec i 0) as [|_]; [lia|].
  destruct (Z.ltb_spec i 0) as [|_]; [lia|].
  destruct (Z.leb_spec (Z.of_nat (length l)) i) as [|_]; [lia|]. cbn.
  destruct (l !! Z.to_nat i) as [x|] eqn:Hx; [eauto|].
  apply lookup_ge_None in Hx. lia.
Qed.

Lemma timestamp_sub_spec t delta :
  (Timestamp_min <= t - delta <= Timestamp_max ->
   timestamp_sub t delta = Ok (t - delta)) /\
  (~ (Timestamp_min <= t - delta <= Timestamp_max) ->
   timestamp_sub t delta = Raise OutOfBoundsDatetime).
Proof.
  unfold timestamp_sub. cbv zeta.
  destruct (Z.ltb_spec (t - delta) Timestamp_min);
    destruct (Z.ltb_spec Timestamp_max (t - delta)); cbn;
    split; intros; try reflexivity; lia.
Qed.

Lemma timestamp_sub_returns t delta c :
  timestamp_sub t delta = Ok c ->
  c = t - delta /\ Timestamp_min <= c <= Timestamp_max.
Proof.
  unfold timestamp_sub. cbv zeta.
  destruct (Z.ltb_spec (t - delta) Timestamp_min) as [Hlo|Hlo];
    destruct (Z.ltb_spec Timestamp_max (t - delta)) as [Hhi|Hhi]; cbn;
    intros Hc; try discriminate. injection Hc as <-. lia.
Qed.

Lemma get_step_time_unfold a b m :
  get_step_time a b m =
  let i := start_index m + (default 0 a - default 0 b) in
  match py_getitem (_calendar m) i with
  | Ok x => match py_getitem (_calendar m) (i + 1) with
            | Ok y => match timestamp_sub y (Timedelta_seconds 1) with
                      | Ok c => (Ok (x, c), m)
                      | Raise e => (Raise e, m)
                      end
            | Raise e => (Raise e, m)
            end
  | Raise e => (Raise e, m)
  end.
Proof. reflexivity. Qed.




Lemma get_step_time_reads a b m : snd (get_step_time a b m) = m.
Proof.
  rewrite get_step_time_unfold. cbv zeta.
  destruct (py_getitem _ _); [|reflexivity].
  destruct (py_getitem _ _); [|reflexivity].
  destruct (timestamp_sub _ _); reflexivity.
Qed.

Section Reset.

Variable parse_time : string -> Res Timestamp.
Variable get_resam_calendar :
  string -> Res (list Timestamp * string * option string).
Variable locate_index :
  TimeLike -> TimeLike -> string -> option string ->
  Res (Timestamp * Timestamp * Z * Z).

Local Abbreviation reset := (reset parse_time get_resam_calendar locate_index).

(** A [reset] that returns has assigned every attribute from the answers of
    the collaborators; nothing of the previous state is left. *)
Lemma reset_returns f s e m0 m :
  reset f s e m0 = (Ok tt, m) ->
  exists st et cal f' fs t1 t2 i j,
    timestamp_or_none parse_time s = Ok st /\
    timestamp_or_none parse_time e = Ok et /\
    get_resam_calendar f = Ok (cal, f', fs) /\
    locate_index s e f' fs = Ok (t1, t2, i, j) /\
    m = mkTCM f st et cal i j (j - i + 1) 0.
Proof.
  unfold reset, Calendar.reset, bind, modify, lift. cbn.
  destruct (timestamp_or_none parse_time s) as [st|] eqn:Hs; [|discriminate].
  destruct (timestamp_or_none parse_time e) as [et|] eqn:He; [|discriminate].
  destruct (get_resam_calendar f) as [[[cal f'] fs]|] eqn:Hc; [|discriminate].
  destruct (locate_index s e f' fs) as [[[[t1 t2] i] j]|] eqn:Hl;
    [|discriminate].
  cbn. intros H. injection H as <-.
  exists st, et, cal, f', fs, t1, t2, i, j. repeat split; assumption.
Qed.

(** C3. Right after a [reset] that returns: the cursor is 0, [trade_len]
    is [end_index - start_index + 1], and the manager is not finished when
    [trade_len] is positive.  [trade_len] calls of [step] then all return
    and leave it finished, and one more call raises. *)
Theorem reset_then_run f s e m0 m :
  reset f s e m0 = (Ok tt, m) ->
  trade_step m = 0 /\
  trade_len m = end_index m - start_index m + 1 /\
  (0 < trade_len m -> finished m = (Ok false, m)) /\
  exists m',
    step_times (Z.to_nat (trade_len m)) m = (Ok tt, m') /\
    finished m' = (Ok true, m') /\
    step m' = (Raise (RuntimeError finished_msg), m').
Proof.
  intros H. apply reset_returns in H.
  destruct H as (st & et & cal & f' & fs & t1 & t2 & i & j & _ & _ & _ & _ & ->).
  cbn [trade_step trade_len end_index start_index].
  split; [reflexivity|]. split; [reflexivity|]. split.
  - intros Hpos. apply finished_false_iff. cbn. lia.
  - set (m := mkTCM f st et cal i j (j - i + 1) 0).
    destruct (Z.lt_ge_cases (j - i + 1) 0) as [Hneg|Hnat].
    + (* no bar at all: zero calls, finished from the start *)
      exists m. rewrite Z2Nat.nonpos by lia.
      split; [reflexivity|]. split.
      * apply finished_true_iff. subst m. cbn. lia.
      * apply step_stopped. subst m. cbn. lia.
    + exists (set_trade_step
                (trade_step m + Z.of_nat (Z.to_nat (trade_len m))) m).
      split; [|split].
      * apply step_times_running. subst m. cbn. lia.
      * apply finished_true_iff. subst m. cbn. lia.
      * apply step_stopped. subst m. cbn. lia.
Qed.

(** C6 (as amended).  When the located range has [end_index >= start_index - 1],
    the cursor invariant holds right after [reset].  From any manager that
    satisfies it, a [step] that returns keeps it and moves the cursor
    forward by exactly one; the reading methods leave the manager as it
    is. *)
Theorem cursor_invariant f s e m0 m :
  reset f s e m0 = (Ok tt, m) ->
  start_index m - 1 <= end_index m ->
  cursor_ok m /\
  (forall m1 m2, cursor_ok m1 -> step m1 = (Ok tt, m2) ->
     cursor_ok m2 /\ trade_step m2 = trade_step m1 + 1) /\
  (forall m1 a b,
     snd (finished m1) = m1 /\ snd (get_freq m1) = m1 /\
     snd (get_trade_len m1) = m1 /\ snd (get_trade_step m1) = m1 /\
     snd (get_step_time a b m1) = m1 /\ snd (get_cur_step_time m1) = m1 /\
     snd (get_all_time m1) = m1).
Proof.
  intros H Hrange. apply reset_returns in H.
  destruct H as (st & et & cal & f' & fs & t1 & t2 & i & j & _ & _ & _ & _ & ->).
  cbn in Hrange. split; [|split].
  - unfold cursor_ok. cbn. lia.
  - intros m1 m2 [Hlo Hhi] Hstep.
    destruct (Z.lt_ge_cases (trade_step m1) (trade_len m1)) as [Hlt|Hge].
    + rewrite step_running in Hstep by exact Hlt.
      injection Hstep as <-. unfold cursor_ok. cbn. lia.
    + rewrite step_stopped in Hstep by exact Hge. discriminate.
  - intros m1 a b.
    repeat split; try reflexivity; apply get_step_time_reads.
Qed.

End Reset.

Lemma reset_then_run_witness :
  reset Daily.parse_time Daily.get_resam_calendar Daily.locate_index
        "day" (TimeStamp (Daily.day 1)) (TimeStamp (Daily.day 5)) unset =
    (Ok tt, Daily.five_days_state) /\
  trade_step Daily.five_days_state = 0 /\
  trade_len Daily.five_days_state =
    end_index Daily.five_days_state - start_index Daily.five_days_state + 1 /\
  (0 < trade_len Daily.five_days_state ->
   finished Daily.five_days_state = (Ok false, Daily.five_days_state)) /\
  exists m',
    step_times (Z.to_nat (trade_len Daily.five_days_state))
               Daily.five_days_state = (Ok tt, m') /\
    finished m' = (Ok true, m') /\
    step m' = (Raise (RuntimeError finished_msg), m').
Proof.
  split; [reflexivity|].
  apply (reset_then_run Daily.parse_time Daily.get_resam_calendar
           Daily.locate_index "day" (TimeStamp (Daily.day 1))
           (TimeStamp (Daily.day 5)) unset Daily.five_days_state).
  reflexivity.
Defined.

(** C6 (the claim as stated fails).  Constructing the daily manager with
    [start_time] three bars after [end_time] returns, and leaves
    [trade_step = 0] above [trade_len = -2]. *)
Lemma cursor_above_trade_len_after_reset :
  reset Daily.parse_time Daily.get_resam_calendar Daily.locate_index
        "day" (TimeStamp (Daily.day 5)) (TimeStamp (Daily.day 2)) unset =
    (Ok tt, Daily.inverted_state) /\
  trade_step Daily.inverted_state = 0 /\
  trade_len Daily.inverted_state = -2 /\
  ~ cursor_ok Daily.inverted_state.
Proof.
  repeat split; try reflexivity. unfold cursor_ok. cbn. lia.
Qed.

Lemma cursor_invariant_witness :
  reset Daily.parse_time Daily.get_resam_calendar Daily.locate_index
        "day" (TimeStamp (Daily.day 1)) (TimeStamp (Daily.day 5)) unset =
    (Ok tt, Daily.five_days_state) /\
  start_index Daily.five_days_state - 1 <= end_index Daily.five_days_state /\
  cursor_ok Daily.five_days_state.
Proof.
  split; [reflexivity|]. split; [cbn; lia|].
  apply (cursor_invariant Daily.parse_time Daily.get_resam_calendar
           Daily.locate_index "day" (TimeStamp (Daily.day 1))
           (TimeStamp (Daily.day 5)) unset Daily.five_days_state).
  - reflexivity.
  - cbn; lia.
Defined.

End CalendarFacts.


Module RegistryFacts.

Import Registry.

(** *** Dict displays *)

Lemma dict_set_keys d k v k' :
  k' ∈ (dict_set d k v).*1 <-> k' = k \/ k' ∈ d.*1.
Proof.
  induction d as [|[k0 v0] d IH]; cbn.
  - rewrite list_elem_of_singleton, elem_of_nil. tauto.
  - case_decide as Hk; cbn; rewrite !elem_of_cons.
    + subst k0. tauto.
    + rewrite IH. tauto.
Qed.

Lemma dict_set_NoDup d k v : NoDup d.*1 -> NoDup (dict_set d k v).*1.
Proof.
  induction d as [|[k0 v0] d IH]; cbn; intros Hnd.
  - apply NoDup_singleton.
  - apply NoDup_cons in Hnd as [Hk0 Hnd]. case_decide; cbn.
    + apply NoDup_cons. split; assumption.
    + apply NoDup_cons. split; [|auto].
      rewrite dict_set_keys. intros [->|?]; [congruence | contradiction].
Qed.

Lemma dict_set_elem d k v k' v' :
  (k', v') ∈ dict_set d k v -> (k' = k /\ v' = v) \/ (k', v') ∈ d.
Proof.
  induction d as [|[k0 v0] d IH]; cbn.
  - intros H. apply list_elem_of_singleton in H. injection H as -> ->. auto.
  - case_decide as Hk; intros H; apply elem_of_cons in H as [H|H].
    + injection H as -> ->. auto.
    + right. apply elem_of_cons. auto.
    + right. apply elem_of_cons. auto.
    + destruct (IH H) as [?|?]; [auto|]. right. apply elem_of_cons. auto.
Qed.

(** *** The store *)

Lemma heap_store_same l o w : heap (store l o w) l = o.
Proof. cbn. case_decide; congruence. Qed.

Lemma heap_store_other l l' o w : l' <> l -> heap (store l o w) l' = heap w l'.
Proof. intros H. cbn. case_decide; congruence. Qed.

(** *** The loop of [reset_infra] *)

Section ResetLoop.

Variable supp : list string.
Variable self : loc.

Local Abbreviation body :=
  (fun '(k, v) => if bool_decide (k ∈ supp) then setattr self k v
                  else warnings_warn (ignored_msg k)).

Lemma reset_loop (kwargs : PyDict) : forall w, exists w',
  for_each kwargs body w = (Ok tt, w') /\
  (forall l, cls (heap w' l) = cls (heap w l)) /\
  (forall l, l <> self -> heap w' l = heap w l) /\
  (forall k, k ∉ supp \/ k ∉ kwargs.*1 ->
     attrs (heap w' self) !! k = attrs (heap w self) !! k) /\
  (NoDup kwargs.*1 -> forall k v, (k, v) ∈ kwargs -> k ∈ supp ->
     attrs (heap w' self) !! k = Some v) /\
  (forall k, k ∈ kwargs.*1 -> k ∉ supp -> ignored_msg k ∈ warned w') /\
  (forall msg, msg ∈ warned w -> msg ∈ warned w').
Proof.
  induction kwargs as [|[k0 v0] rest IH]; intros w.
  - exists w. cbn. repeat split; auto.
    + intros _ k v H. apply elem_of_nil in H. contradiction.
    + intros k H. apply elem_of_nil in H. contradiction.
  - cbn [for_each]. unfold bind at 1.
    destruct (bool_decide_reflect (k0 ∈ supp)) as [Hin|Hout].
    + (* a supported name: the value is stored *)
      set (w1 := store self (mkInstance (cls (heap w self))
                               (<[k0 := v0]> (attrs (heap w self)))) w).
      change (setattr self k0 v0 w) with (Ok tt, w1).
      destruct (IH w1) as (w' & Hrun & Hcls & Hoth & Hsame & Hset & Hwarn & Hmono).
      exists w'. split; [exact Hrun|]. repeat split.
      * intros l. rewrite Hcls. subst w1. cbn. case_decide; subst; reflexivity.
      * intros l Hl. rewrite Hoth by exact Hl. apply heap_store_other, Hl.
      * intros k Hk. assert (k <> k0) as Hne.
        { intros ->. destruct Hk as [Hk|Hk]; [contradiction|].
          apply Hk. cbn. apply elem_of_cons. auto. }
        rewrite Hsame.
        -- subst w1. rewrite heap_store_same. cbn.
           apply lookup_insert_ne. congruence.
        -- destruct Hk as [Hk|Hk]; [auto|]. right. intros Hr. apply Hk.
           cbn. apply elem_of_cons. auto.
      * intros Hnd k v Hkv Hk. cbn in Hnd.
        apply NoDup_cons in Hnd as [Hfresh Hnd].
        apply elem_of_cons in Hkv as [Heq|Hkv].
        -- injection Heq as -> ->. rewrite Hsame by auto.
           subst w1. rewrite heap_store_same. cbn. apply lookup_insert_eq.
        -- apply (Hset Hnd k v); assumption.
      * intros k Hk Hns. apply Hwarn; [|exact Hns].
        cbn in Hk. apply elem_of_cons in Hk as [->|Hk]; [contradiction|exact Hk].
      * intros msg Hmsg. apply Hmono. exact Hmsg.
    + (* an unsupported name: a warning, nothing stored *)
      set (w1 := mkWorld (heap w) (warned w ++ [ignored_msg k0])).
      change (warnings_warn (ignored_msg k0) w) with (Ok tt, w1).
      destruct (IH w1) as (w' & Hrun & Hcls & Hoth & Hsame & Hset & Hwarn & Hmono).
      exists w'. split; [exact Hrun|]. repeat split.
      * exact Hcls.
      * exact Hoth.
      * intros k Hk. destruct (decide (k ∈ rest.*1)) as [Hr|Hr].
        -- destruct Hk as [Hk|Hk]; [apply Hsame; auto|].
           exfalso. apply Hk. cbn. apply elem_of_cons. auto.
        -- apply Hsame. auto.
      * intros Hnd k v Hkv Hk. cbn in Hnd.
        apply NoDup_cons in Hnd as [Hfresh Hnd].
        apply elem_of_cons in Hkv as [Heq|Hkv].
        -- injection Heq as -> ->. contradiction.
        -- apply (Hset Hnd k v); assumption.
      * intros k Hk Hns. cbn in Hk. apply elem_of_cons in Hk as [->|Hk].
        -- apply Hmono. subst w1. cbn. apply elem_of_app. right.
           apply list_elem_of_singleton. reflexivity.
        -- apply Hwarn; assumption.
      * intros msg Hmsg. apply Hmono. subst w1. cbn.
        apply elem_of_app. auto.
Qed.

End ResetLoop.

Section MethodFacts.

Variable class_getattr : InfraClass -> loc -> string -> option PyObj.

Local Abbreviation lookup_attr := (lookup_attr class_getattr).
Local Abbreviation hasattr := (hasattr class_getattr).
Local Abbreviation getattr := (getattr class_getattr).
Local Abbreviation get := (get class_getattr).
Local Abbreviation has := (has class_getattr).
Local Abbreviation update := (update class_getattr).

Lemma get_support_infra_eq self w :
  get_support_infra self w = (support_of (cls (heap w self)), w).
Proof. reflexivity. Qed.

Lemma hasattr_eq self k w :
  hasattr self k w = (Ok (bool_decide (is_Some (lookup_attr w self k))), w).
Proof. reflexivity. Qed.

Lemma hasattr_true self k w :
  hasattr self k w = (Ok true, w) <-> is_Some (lookup_attr w self k).
Proof.
  rewrite hasattr_eq. split.
  - intros H. injection H as H. apply bool_decide_eq_true in H. exact H.
  - intros H. do 2 f_equal. apply bool_decide_eq_true. exact H.
Qed.

Lemma get_found self k v w :
  lookup_attr w self k = Some v -> get self k w = (Ok v, w).
Proof.
  intros H. unfold Registry.get, bind. rewrite hasattr_eq, H.
  rewrite bool_decide_eq_true_2 by eauto.
  unfold Registry.getattr, bind, gets. rewrite H. reflexivity.
Qed.

Lemma get_stored self k v w :
  attrs (heap w self) !! k = Some v -> get self k w = (Ok v, w).
Proof.
  intros H. apply get_found. unfold Registry.lookup_attr. rewrite H.
  reflexivity.
Qed.

Lemma has_unsupported self k supp w :
  support_of (cls (heap w self)) = Ok supp -> k ∉ supp ->
  has self k w = (Ok false, w).
Proof.
  intros Hs Hk. unfold Registry.has. unfold bind at 1.
  rewrite get_support_infra_eq, Hs.
  rewrite bool_decide_eq_false_2 by exact Hk. reflexivity.
Qed.

Lemma reset_infra_loop self kwargs supp w :
  support_of (cls (heap w self)) = Ok supp ->
  reset_infra self kwargs w =
  for_each kwargs
    (fun '(k, v) => if bool_decide (k ∈ supp) then setattr self k v
                    else warnings_warn (ignored_msg k)) w.
Proof.
  intros Hs. unfold reset_infra. unfold bind at 1.
  rewrite get_support_infra_eq, Hs. reflexivity.
Qed.

(** A registry of the abstract base class has no supported names:
    [reset_infra] raises before it looks at any pair. *)
Lemma reset_infra_without_support self kwargs e w :
  support_of (cls (heap w self)) = Raise e ->
  reset_infra self kwargs w = (Raise e, w).
Proof.
  intros Hs. unfold reset_infra. unfold bind at 1.
  rewrite get_support_infra_eq, Hs. reflexivity.
Qed.

(** C7. On a registry whose class declares its supported names,
    [reset_infra] returns; every pair with a supported name is stored under
    that name (and [get] reads it back), every other pair leaves the
    attribute as it was, is reported by a warning, and [has] answers false
    for its name before and after. *)
Theorem reset_infra_stores_or_ignores self kwargs supp w :
  support_of (cls (heap w self)) = Ok supp ->
  NoDup kwargs.*1 ->
  exists w',
    reset_infra self kwargs w = (Ok tt, w') /\
    forall k v, (k, v) ∈ kwargs ->
      (k ∈ supp ->
         attrs (heap w' self) !! k = Some v /\ get self k w' = (Ok v, w')) /\
      (k ∉ supp ->
         attrs (heap w' self) !! k = attrs (heap w self) !! k /\
         ignored_msg k ∈ warned w' /\
         has self k w = (Ok false, w) /\
         has self k w' = (Ok false, w')).
Proof.
  intros Hs Hnd. rewrite (reset_infra_loop _ _ supp) by exact Hs.
  destruct (reset_loop supp self kwargs w)
    as (w' & Hrun & Hcls & _ & Hsame & Hset & Hwarn & _).
  exists w'. split; [exact Hrun|]. intros k v Hkv. split; intros Hk.
  - assert (attrs (heap w' self) !! k = Some v) as Hv by eauto.
    split; [exact Hv | apply get_stored, Hv].
  - split; [apply Hsame; auto|]. split.
    + apply Hwarn; [|exact Hk]. apply list_elem_of_fmap.
      exists (k, v). split; [reflexivity | exact Hkv].
    + split; apply (has_unsupported _ _ supp); try exact Hk; [exact Hs|].
      rewrite Hcls. exact Hs.
Qed.

(** The dict display of [update]: one binding for each supported name of
    [other] that [other] holds, bound to what [getattr] reads. *)
Lemma infra_dict_spec other w : forall supp acc,
  NoDup acc.*1 ->
  (forall k v, (k, v) ∈ acc -> lookup_attr w other k = Some v) ->
  exists d,
    infra_dict_of class_getattr other supp acc w = (Ok d, w) /\
    NoDup d.*1 /\
    (forall k v, (k, v) ∈ d -> lookup_attr w other k = Some v) /\
    (forall k, k ∈ acc.*1 \/ (k ∈ supp /\ is_Some (lookup_attr w other k)) ->
               k ∈ d.*1).
Proof.
  induction supp as [|x rest IH]; intros acc Hnd Hacc.
  - exists acc. cbn. repeat split; auto.
    intros k [H|[H _]]; [exact H|]. apply elem_of_nil in H. contradiction.
  - cbn [infra_dict_of]. unfold bind at 1. rewrite hasattr_eq.
    destruct (lookup_attr w other x) as [v|] eqn:Hx.
    + rewrite bool_decide_eq_true_2 by eauto.
      unfold bind at 1. unfold Registry.getattr at 1. unfold bind, gets.
      rewrite Hx. cbv beta iota. unfold ret at 1.
      destruct (IH (dict_set acc x v)) as (d & Hrun & Hd & Hval & Hkeys).
      * apply dict_set_NoDup, Hnd.
      * intros k v' H. apply dict_set_elem in H as [[-> ->]|H]; auto.
      * exists d. split; [exact Hrun|]. repeat split; auto.
        intros k Hk. apply Hkeys. rewrite dict_set_keys.
        destruct Hk as [Hk|[Hk Hsome]]; [auto|].
        apply elem_of_cons in Hk as [->|Hk]; auto.
    + rewrite bool_decide_eq_false_2 by (intros [? ?]; discriminate).
      destruct (IH acc Hnd Hacc) as (d & Hrun & Hd & Hval & Hkeys).
      exists d. split; [exact Hrun|]. repeat split; auto.
      intros k Hk. apply Hkeys. destruct Hk as [Hk|[Hk Hsome]]; [auto|].
      apply elem_of_cons in Hk as [->|Hk]; [|auto].
      rewrite Hx in Hsome. destruct Hsome; discriminate.
Qed.

(** C8. [a.update(b)] returns when both classes declare their supported
    names.  Afterwards, for every name [X] that [b] supports and holds: if
    [a] supports [X] then [a.get(X)] and [b.get(X)] return the same value
    (the one [b] held before the call); if [a] does not support [X] then
    [a.has(X)] is false. *)
Theorem update_copies_supported a b suppa suppb w :
  support_of (cls (heap w a)) = Ok suppa ->
  support_of (cls (heap w b)) = Ok suppb ->
  exists w',
    update a b w = (Ok tt, w') /\
    forall X, X ∈ suppb -> hasattr b X w = (Ok true, w) ->
      (X ∈ suppa ->
         exists v, get a X w' = (Ok v, w') /\ get b X w' = (Ok v, w') /\
                   get b X w = (Ok v, w)) /\
      (X ∉ suppa -> has a X w' = (Ok false, w')).
Proof.
  intros Ha Hb.
  destruct (infra_dict_spec b w suppb []) as (d & Hd & Hnd & Hval & Hkeys).
  { apply NoDup_nil_2. }
  { intros k v H. apply elem_of_nil in H. contradiction. }
  destruct (reset_loop suppa a d w)
    as (w' & Hrun & Hcls & Hoth & _ & Hset & _ & _).
  exists w'. split.
  - unfold Registry.update. unfold bind at 1.
    rewrite get_support_infra_eq, Hb. unfold bind at 1. rewrite Hd.
    rewrite (reset_infra_loop _ _ suppa) by exact Ha. exact Hrun.
  - intros X HX Hheld. apply hasattr_true in Hheld as [v Hv].
    split; intros HXa.
    + exists v.
      assert (exists v', (X, v') ∈ d) as [v' Hin].
      { assert (X ∈ d.*1) as H by (apply Hkeys; right; eauto).
        apply list_elem_of_fmap in H as ([k v'] & -> & H). eauto. }
      assert (v' = v) as -> by (apply Hval in Hin; congruence).
      assert (get a X w' = (Ok v, w')) as Hget
        by (apply get_stored; eauto).
      split; [exact Hget|]. split; [|apply get_found, Hv].
      destruct (decide (b = a)) as [->|Hne]; [exact Hget|].
      apply get_found. unfold Registry.lookup_attr in *.
      rewrite (Hoth b Hne). exact Hv.
    + apply (has_unsupported _ _ suppa); [|exact HXa].
      rewrite Hcls. exact Ha.
Qed.

End MethodFacts.

Local Open Scope positive_scope.

Lemma reset_infra_stores_or_ignores_witness :
  support_of (cls (heap Desk.world 1)) =
    Ok ["trade_account"; "trade_exchange"] /\
  NoDup [("trade_account", PyRef 11); ("trade_calendar", PyRef 12)].*1 /\
  exists w',
    reset_infra 1
      [("trade_account", PyRef 11); ("trade_calendar", PyRef 12)]
      Desk.world = (Ok tt, w') /\
    forall k v,
      (k, v) ∈ [("trade_account", PyRef 11);
                ("trade_calendar", PyRef 12)] ->
      (k ∈ ["trade_account"; "trade_exchange"] ->
         attrs (heap w' 1) !! k = Some v /\
         get Desk.class_getattr 1 k w' = (Ok v, w')) /\
      (k ∉ ["trade_account"; "trade_exchange"] ->
         attrs (heap w' 1) !! k =
           attrs (heap Desk.world 1) !! k /\
         ignored_msg k ∈ warned w' /\
         has Desk.class_getattr 1 k Desk.world =
           (Ok false, Desk.world) /\
         has Desk.class_getattr 1 k w' = (Ok false, w')).
Proof.
  split; [reflexivity|].
  split; [apply (bool_decide_unpack _); vm_compute; exact I|].
  apply (reset_infra_stores_or_ignores Desk.class_getattr 1
           [("trade_account", PyRef 11); ("trade_calendar", PyRef 12)]
           ["trade_account"; "trade_exchange"] Desk.world).
  - reflexivity.
  - apply (bool_decide_unpack _); vm_compute; exact I.
Defined.

Lemma update_copies_supported_witness :
  support_of (cls (heap Desk.world 3)) =
    Ok ["trade_account"; "trade_exchange"] /\
  support_of (cls (heap Desk.world 1)) =
    Ok ["trade_account"; "trade_exchange"] /\
  exists w',
    update Desk.class_getattr 3 1 Desk.world = (Ok tt, w') /\
    forall X, X ∈ ["trade_account"; "trade_exchange"] ->
      hasattr Desk.class_getattr 1 X Desk.world =
        (Ok true, Desk.world) ->
      (X ∈ ["trade_account"; "trade_exchange"] ->
         exists v, get Desk.class_getattr 3 X w' = (Ok v, w') /\
                   get Desk.class_getattr 1 X w' = (Ok v, w') /\
                   get Desk.class_getattr 1 X Desk.world =
                     (Ok v, Desk.world)) /\
      (X ∉ ["trade_account"; "trade_exchange"] ->
         has Desk.class_getattr 3 X w' = (Ok false, w')).
Proof.
  split; [reflexivity|]. split; [reflexivity|].
  apply (update_copies_supported Desk.class_getattr 3 1
           ["trade_account"; "trade_exchange"]
           ["trade_account"; "trade_exchange"] Desk.world); reflexivity.
Defined.

(** The two cases on the concrete store: copying the trade account of
    registry 1 into the empty common registry 3, and into the level
    registry 2, which does not support it. *)
Example update_on_the_desk :
  fst ((update Desk.class_getattr 3 1 ;;
        get Desk.class_getattr 3 "trade_account") Desk.world) =
    Ok (PyRef 10) /\
  fst ((update Desk.class_getattr 2 1 ;;
        has Desk.class_getattr 2 "trade_account") Desk.world) =
    Ok false.
Proof. split; vm_compute; reflexivity. Qed.

End RegistryFacts.

Module ResolverFacts.

Import Calendar Resolver.

(** C9. [get_start_end_idx] hands back what [get_range_limit] returns; when
    [get_range_limit] raises [NotImplementedError] it returns
    [(0, trade_len - 1)] instead of raising; any other exception passes
    through.  The calendar is only read. *)
Theorem get_start_end_idx_spec d cal :
  (forall r, get_range_limit d = Ok r ->
     get_start_end_idx d cal = (Ok r, cal)) /\
  (forall msg, get_range_limit d = Raise (NotImplementedError msg) ->
     get_start_end_idx d cal = (Ok (0, trade_len cal - 1), cal)) /\
  (forall e, get_range_limit d = Raise e -> is_NotImplementedError e = false ->
     get_start_end_idx d cal = (Raise e, cal)).
Proof.
  unfold get_start_end_idx, try_except, lift.
  repeat split.
  - intros r ->. reflexivity.
  - intros msg ->. reflexivity.
  - intros e -> He. rewrite He. reflexivity.
Qed.

Lemma get_start_end_idx_spec_witness :
  get_start_end_idx (mkDecision (Ok (1, 3))) Daily.five_days_state =
    (Ok (1, 3), Daily.five_days_state) /\
  get_start_end_idx
    (mkDecision (Raise (NotImplementedError "get_range_limit")))
    Daily.five_days_state = (Ok (0, 4), Daily.five_days_state).
Proof.
  split.
  - apply (proj1 (get_start_end_idx_spec (mkDecision (Ok (1, 3)))
                    Daily.five_days_state) (1, 3)).
    reflexivity.
  - apply (proj1 (proj2 (get_start_end_idx_spec
                    (mkDecision (Raise (NotImplementedError "get_range_limit")))
                    Daily.five_days_state)) "get_range_limit").
    reflexivity.
Defined.

End ResolverFacts.

(** * Further properties of the calendar *)

Module CalendarEdge.

Import Calendar Resolver.

Lemma py_getitem_spec {A} (l : list A) (i : Z) :
  let n := Z.of_nat (length l) in
  (- n <= i < n ->
   exists x, l !! Z.to_nat (if i <? 0 then i + n else i) = Some x /\
             py_getitem l i = Ok x) /\
  (~ (- n <= i < n) -> py_getitem l i = Raise IndexError).
Proof.
  cbv zeta. unfold py_getitem. cbv zeta.
  set (n := Z.of_nat (length l)).
  set (j := if i <? 0 then i + n else i).
  assert (Hj : (- n <= i < n) <-> (0 <= j < n)).
  { subst j. destruct (Z.ltb_spec i 0); lia. }
  split; intros H.
  - apply Hj in H.
    destruct (Z.ltb_spec j 0) as [|_]; [lia|].
    destruct (Z.leb_spec n j) as [|_]; [lia|]. cbn.
    destruct (l !! Z.to_nat j) as [x|] eqn:Hx; [eauto|].
    apply lookup_ge_None in Hx. lia.
  - rewrite Hj in H.
    destruct (Z.ltb_spec j 0) as [|Hlo]; [reflexivity|].
    destruct (Z.leb_spec n j) as [|Hhi]; [reflexivity|]. lia.
Qed.

(** What [get_step_time] does once both indices lie in the calendar: it
    reads the two entries, and returns unless the second one less one second
    is no timestamp. *)
Lemma get_step_time_in_range a b m :
  let i := start_index m + (default 0 a - default 0 b) in
  let n := Z.of_nat (length (_calendar m)) in
  - n <= i -> i + 1 < n ->
  exists x y,
    _calendar m !! Z.to_nat (if i <? 0 then i + n else i) = Some x /\
    _calendar m !! Z.to_nat (if i + 1 <? 0 then i + 1 + n else i + 1) =
      Some y /\
    (Timestamp_min <= y - Timedelta_seconds 1 <= Timestamp_max ->
     get_step_time a b m = (Ok (x, y - Timedelta_seconds 1), m)) /\
    (~ (Timestamp_min <= y - Timedelta_seconds 1 <= Timestamp_max) ->
     get_step_time a b m = (Raise OutOfBoundsDatetime, m)).
Proof.
  cbv zeta. rewrite CalendarFacts.get_step_time_unfold. cbv zeta.
  set (i := start_index m + (default 0 a - default 0 b)).
  set (n := Z.of_nat (length (_calendar m))).
  intros Hlo Hhi.
  destruct (py_getitem_spec (_calendar m) i) as [Hin _].
  destruct (py_getitem_spec (_calendar m) (i + 1)) as [Hin' _].
  fold n in Hin, Hin'.
  destruct Hin as (x & Hx & ->); [lia|].
  destruct Hin' as (y & Hy & ->); [lia|].
  exists x, y. split; [exact Hx|]. split; [exact Hy|].
  destruct (CalendarFacts.timestamp_sub_spec y (Timedelta_seconds 1))
    as [Hok Hbad].
  split; intros H.
  - rewrite (Hok H). reflexivity.
  - rewrite (Hbad H). reflexivity.
Qed.

Lemma get_step_time_out_of_range a b m :
  let i := start_index m + (default 0 a - default 0 b) in
  let n := Z.of_nat (length (_calendar m)) in
  ~ (- n <= i /\ i + 1 < n) ->
  get_step_time a b m = (Raise IndexError, m).
Proof.
  cbv zeta. rewrite CalendarFacts.get_step_time_unfold. cbv zeta.
  set (i := start_index m + (default 0 a - default 0 b)).
  set (n := Z.of_nat (length (_calendar m))).
  intros Hout.
  destruct (py_getitem_spec (_calendar m) i) as [Hin Hout0].
  destruct (py_getitem_spec (_calendar m) (i + 1)) as [_ Hout1].
  fold n in Hin, Hout0, Hout1.
  destruct (decide (- n <= i < n)) as [Hi|Hi].
  - destruct (Hin Hi) as (x & _ & ->). rewrite Hout1 by lia. reflexivity.
  - rewrite (Hout0 Hi). reflexivity.
Qed.

(** X1. [get_step_time] has three outcomes and never changes the manager.
    It raises [IndexError] exactly when the effective index
    [start_index + trade_step - shift] or its successor lies outside
    [-len, len) of the calendar.  Otherwise it reads the two entries [x] and
    [y]: it returns [(x, y - 1s)] when [y] less one second is a timestamp,
    and raises [OutOfBoundsDatetime] when it is not. *)
Theorem get_step_time_bounds a b m :
  let i := start_index m + (default 0 a - default 0 b) in
  let n := Z.of_nat (length (_calendar m)) in
  (get_step_time a b m = (Raise IndexError, m) <->
   ~ (- n <= i /\ i + 1 < n)) /\
  (- n <= i /\ i + 1 < n ->
   exists x y,
     py_getitem (_calendar m) i = Ok x /\
     py_getitem (_calendar m) (i + 1) = Ok y /\
     (Timestamp_min <= y - Timedelta_seconds 1 <= Timestamp_max ->
      get_step_time a b m = (Ok (x, y - Timedelta_seconds 1), m)) /\
     (~ (Timestamp_min <= y - Timedelta_seconds 1 <= Timestamp_max) ->
      get_step_time a b m = (Raise OutOfBoundsDatetime, m))) /\
  snd (get_step_time a b m) = m.
Proof.
  cbv zeta.
  set (i := start_index m + (default 0 a - default 0 b)).
  set (n := Z.of_nat (length (_calendar m))).
  assert (Hin : - n <= i /\ i + 1 < n ->
    exists x y,
      py_getitem (_calendar m) i = Ok x /\
      py_getitem (_calendar m) (i + 1) = Ok y /\
      (Timestamp_min <= y - Timedelta_seconds 1 <= Timestamp_max ->
       get_step_time a b m = (Ok (x, y - Timedelta_seconds 1), m)) /\
      (~ (Timestamp_min <= y - Timedelta_seconds 1 <= Timestamp_max) ->
       get_step_time a b m = (Raise OutOfBoundsDatetime, m))).
  { intros [Hlo Hhi].
    destruct (get_step_time_in_range a b m Hlo Hhi)
      as (x & y & _ & _ & Hok & Hbad).
    destruct (py_getitem_spec (_calendar m) i) as [Hi _].
    destruct (py_getitem_spec (_calendar m) (i + 1)) as [Hi' _].
    fold n in Hi, Hi'.
    destruct Hi as (x' & _ & Gx); [lia|].
    destruct Hi' as (y' & _ & Gy); [lia|].
    exists x', y'. split; [exact Gx|]. split; [exact Gy|].
    rewrite CalendarFacts.get_step_time_unfold. cbv zeta.
    fold i. rewrite Gx, Gy.
    destruct (CalendarFacts.timestamp_sub_spec y' (Timedelta_seconds 1))
      as [Hok' Hbad'].
    split; intros H; [rewrite (Hok' H) | rewrite (Hbad' H)]; reflexivity. }
  split; [|split; [exact Hin | apply CalendarFacts.get_step_time_reads]].
  split.
  - intros Hraise Hrange. destruct (Hin Hrange) as (x & y & _ & _ & Hok & Hbad).
    destruct (decide (Timestamp_min <= y - Timedelta_seconds 1
                      <= Timestamp_max)) as [H|H].
    + rewrite (Hok H) in Hraise. discriminate.
    + rewrite (Hbad H) in Hraise. discriminate.
  - apply get_step_time_out_of_range.
Qed.

(** X2. A negative effective index is not refused: it counts from the end
    of the calendar, and at [-1] the right end of the interval comes from the
    first entry.  The call returns that interval when the right entry less
    one second is a timestamp, and raises [OutOfBoundsDatetime] when it is
    not. *)
Theorem get_step_time_wraps a b m :
  let i := start_index m + (default 0 a - default 0 b) in
  let n := Z.of_nat (length (_calendar m)) in
  - n <= i < 0 ->
  exists x y,
    _calendar m !! Z.to_nat (n + i) = Some x /\
    _calendar m !! Z.to_nat ((n + i + 1) mod n) = Some y /\
    (Timestamp_min <= y - Timedelta_seconds 1 <= Timestamp_max ->
     get_step_time a b m = (Ok (x, y - Timedelta_seconds 1), m)) /\
    (~ (Timestamp_min <= y - Timedelta_seconds 1 <= Timestamp_max) ->
     get_step_time a b m = (Raise OutOfBoundsDatetime, m)).
Proof.
  cbv zeta. intros Hi.
  destruct (get_step_time_in_range a b m) as (x & y & Hx & Hy & Hok & Hbad);
    [lia|lia|].
  set (i := start_index m + (default 0 a - default 0 b)) in *.
  set (n := Z.of_nat (length (_calendar m))) in *.
  exists x, y. split; [|split; [|split; [exact Hok | exact Hbad]]].
  - destruct (Z.ltb_spec i 0); [|lia]. rewrite Z.add_comm. exact Hx.
  - destruct (Z.ltb_spec (i + 1) 0).
    + rewrite Z.mod_small by lia.
      replace (n + i + 1) with (i + 1 + n) by lia. exact Hy.
    + replace (n + i + 1) with n by lia. rewrite Z.mod_same by lia.
      replace (i + 1) with 0 in Hy by lia. exact Hy.
Qed.

Lemma get_step_time_wraps_witness :
  - Z.of_nat (length (_calendar Daily.five_days_state)) <=
    start_index Daily.five_days_state + (default 0 (Some 0) - default 0 (Some 2))
    < 0 /\
  exists x y,
    _calendar Daily.five_days_state !! Z.to_nat (8 + (1 + (0 - 2))) = Some x /\
    _calendar Daily.five_days_state !!
      Z.to_nat ((8 + (1 + (0 - 2)) + 1) mod 8) = Some y /\
    (Timestamp_min <= y - Timedelta_seconds 1 <= Timestamp_max ->
     get_step_time (Some 0) (Some 2) Daily.five_days_state =
       (Ok (x, y - Timedelta_seconds 1), Daily.five_days_state)) /\
    (~ (Timestamp_min <= y - Timedelta_seconds 1 <= Timestamp_max) ->
     get_step_time (Some 0) (Some 2) Daily.five_days_state =
       (Raise OutOfBoundsDatetime, Daily.five_days_state)).
Proof.
  split; [cbn; lia|].
  apply (get_step_time_wraps (Some 0) (Some 2) Daily.five_days_state).
  cbn; lia.
Defined.

Lemma get_step_time_returns s m o c :
  0 <= start_index m + s ->
  get_step_time (Some s) (Some 0) m = (Ok (o, c), m) ->
  _calendar m !! Z.to_nat (start_index m + s) = Some o /\
  _calendar m !! Z.to_nat (start_index m + s + 1) =
    Some (c + Timedelta_seconds 1).
Proof.
  intros H0 Hrun.
  rewrite CalendarFacts.get_step_time_unfold in Hrun. cbv zeta in Hrun.
  cbn [default from_option] in Hrun. unfold id in Hrun.
  rewrite Z.sub_0_r in Hrun.
  assert (Hhi : start_index m + s + 1 < Z.of_nat (length (_calendar m))).
  { destruct (Z.lt_ge_cases (start_index m + s + 1)
                (Z.of_nat (length (_calendar m)))) as [H|H]; [exact H|].
    destruct (py_getitem_spec (_calendar m) (start_index m + s + 1))
      as [_ Hout].
    rewrite Hout in Hrun by lia.
    destruct (py_getitem (_calendar m) (start_index m + s)); discriminate. }
  destruct (CalendarFacts.py_getitem_in_range (_calendar m) (start_index m + s))
    as (x & Hx & Gx); [lia|].
  destruct (CalendarFacts.py_getitem_in_range (_calendar m)
              (start_index m + s + 1)) as (y & Hy & Gy); [lia|].
  rewrite Gx, Gy in Hrun.
  destruct (timestamp_sub y (Timedelta_seconds 1)) as [c'|] eqn:Hsub;
    [|discriminate].
  injection Hrun as <- <-.
  apply CalendarFacts.timestamp_sub_returns in Hsub as [-> _].
  split; [exact Hx|].
  replace (y - Timedelta_seconds 1 + Timedelta_seconds 1) with y by lia.
  exact Hy.
Qed.

Lemma bars_spaced_head a l :
  Spacing.bars_spaced (a :: l) = true ->
  forall j b, l !! j = Some b -> a + Timedelta_seconds 1 <= b.
Proof.
  revert a. induction l as [|b0 l IH]; intros a Hsp j b Hj.
  - destruct j; discriminate.
  - cbn [Spacing.bars_spaced] in Hsp. apply andb_prop in Hsp as [Hab Hrest].
    apply Z.leb_le in Hab. destruct j as [|j].
    + injection Hj as <-. exact Hab.
    + cbn in Hj. specialize (IH b0 Hrest j b Hj).
      unfold Timedelta_seconds in *. lia.
Qed.

Lemma bars_spaced_lookup l :
  Spacing.bars_spaced l = true ->
  forall i j a b, (i < j)%nat -> l !! i = Some a -> l !! j = Some b ->
                  a + Timedelta_seconds 1 <= b.
Proof.
  induction l as [|a0 l IH]; intros Hsp i j a b Hij Hi Hj.
  - destruct i; discriminate.
  - destruct j as [|j]; [lia|]. cbn in Hj. destruct i as [|i].
    + injection Hi as <-. exact (bars_spaced_head a0 l Hsp j b Hj).
    + cbn in Hi. apply (IH ltac:(destruct l; [reflexivity|];
        cbn [Spacing.bars_spaced] in Hsp;
        apply andb_prop in Hsp as [_ H]; exact H) i j a b); [lia|exact Hi|exact Hj].
Qed.

(** X3. On a calendar whose bars are at least one second apart, the interval of
    a step is not empty and ends strictly before the interval of any later
    step begins: the intervals of distinct steps do not overlap. *)
Theorem step_intervals_ordered m s t o1 c1 o2 c2 :
  Spacing.bars_spaced (_calendar m) = true ->
  0 <= start_index m + s ->
  s < t ->
  get_step_time (Some s) (Some 0) m = (Ok (o1, c1), m) ->
  get_step_time (Some t) (Some 0) m = (Ok (o2, c2), m) ->
  o1 <= c1 /\ c1 < o2.
Proof.
  intros Hsp H0 Hst Hs Ht.
  apply get_step_time_returns in Hs as [Ho1 Hc1]; [|exact H0].
  apply get_step_time_returns in Ht as [Ho2 _]; [|lia].
  assert (H1 : o1 + Timedelta_seconds 1 <= c1 + Timedelta_seconds 1).
  { apply (bars_spaced_lookup _ Hsp (Z.to_nat (start_index m + s))
             (Z.to_nat (start_index m + s + 1))); [lia|exact Ho1|exact Hc1]. }
  split; [lia|].
  destruct (decide (t = s + 1)) as [->|Hne].
  - rewrite Z.add_assoc in Ho2.
    assert (Some o2 = Some (c1 + Timedelta_seconds 1)) as Heq
      by (etransitivity; [symmetry; exact Ho2 | exact Hc1]).
    injection Heq as ->. unfold Timedelta_seconds. lia.
  - assert (H2 : c1 + Timedelta_seconds 1 + Timedelta_seconds 1 <= o2).
    { apply (bars_spaced_lookup _ Hsp (Z.to_nat (start_index m + s + 1))
               (Z.to_nat (start_index m + t))); [lia|exact Hc1|exact Ho2]. }
    unfold Timedelta_seconds in *. lia.
Qed.

Lemma step_intervals_ordered_witness :
  Spacing.bars_spaced (_calendar Daily.five_days_state) = true /\
  0 <= start_index Daily.five_days_state + 0 /\
  0 < 4 /\
  get_step_time (Some 0) (Some 0) Daily.five_days_state =
    (Ok (Daily.day 1, Daily.day 2 - 1000000000), Daily.five_days_state) /\
  get_step_time (Some 4) (Some 0) Daily.five_days_state =
    (Ok (Daily.day 5, Daily.day 6 - 1000000000), Daily.five_days_state) /\
  Daily.day 1 <= Daily.day 2 - 1000000000 /\
  Daily.day 2 - 1000000000 < Daily.day 5.
Proof.
  split; [reflexivity|]. split; [cbn; lia|]. split; [lia|].
  split; [reflexivity|]. split; [reflexivity|].
  apply (step_intervals_ordered Daily.five_days_state 0 4
           (Daily.day 1) (Daily.day 2 - 1000000000)
           (Daily.day 5) (Daily.day 6 - 1000000000));
    try reflexivity; cbn; lia.
Defined.

(** X5. Asking for more steps than are left raises at the first call past the
    end; the calls before it have happened, so the cursor stands at
    [trade_len]. *)
Theorem step_times_overrun n : forall m,
  trade_step m <= trade_len m ->
  trade_len m < trade_step m + Z.of_nat n ->
  step_times n m =
    (Raise (RuntimeError finished_msg), set_trade_step (trade_len m) m).
Proof.
  induction n as [|n IH]; intros m Hle Hover; [lia|].
  cbn [step_times]. unfold bind.
  destruct (Z.lt_ge_cases (trade_step m) (trade_len m)) as [Hlt|Hge].
  - rewrite CalendarFacts.step_running by exact Hlt.
    rewrite IH by (cbn; lia). destruct m; reflexivity.
  - rewrite CalendarFacts.step_stopped by exact Hge.
    destruct m. unfold set_trade_step. cbn in *. do 2 f_equal. lia.
Qed.

Lemma step_times_overrun_witness :
  trade_step Daily.five_days_state <= trade_len Daily.five_days_state /\
  trade_len Daily.five_days_state <
    trade_step Daily.five_days_state + Z.of_nat 7 /\
  step_times 7 Daily.five_days_state =
    (Raise (RuntimeError finished_msg),
     set_trade_step 5 Daily.five_days_state).
Proof.
  split; [cbn; lia|]. split; [cbn; lia|].
  apply (step_times_overrun 7 Daily.five_days_state); cbn; lia.
Defined.

(** X6. [get_cur_step_time] does not ask [finished]: on a manager whose
    cursor has reached [trade_len] it reads the bar after [end_index].  When
    the calendar holds two more entries it returns that bar, provided the
    entry after it less one second is a timestamp, and raises
    [OutOfBoundsDatetime] if not; when the calendar does not hold them it
    raises [IndexError].  It never raises the error of [step]. *)
Theorem get_cur_step_time_after_last_step m :
  trade_step m = trade_len m ->
  trade_len m = end_index m - start_index m + 1 ->
  0 <= end_index m + 1 ->
  (end_index m + 2 < Z.of_nat (length (_calendar m)) ->
   exists x y,
     _calendar m !! Z.to_nat (end_index m + 1) = Some x /\
     _calendar m !! Z.to_nat (end_index m + 2) = Some y /\
     (Timestamp_min <= y - Timedelta_seconds 1 <= Timestamp_max ->
      get_cur_step_time m = (Ok (x, y - Timedelta_seconds 1), m)) /\
     (~ (Timestamp_min <= y - Timedelta_seconds 1 <= Timestamp_max) ->
      get_cur_step_time m = (Raise OutOfBoundsDatetime, m))) /\
  (Z.of_nat (length (_calendar m)) <= end_index m + 2 ->
   get_cur_step_time m = (Raise IndexError, m)).
Proof.
  intros Hcur Hlen H0.
  assert (Hrun : get_cur_step_time m =
                 get_step_time (Some (trade_step m)) None m) by reflexivity.
  rewrite Hrun.
  assert (Hi : start_index m + (default 0 (Some (trade_step m)) - default 0 None)
               = end_index m + 1).
  { cbn [default from_option]. unfold id. lia. }
  split; intros Hn.
  - destruct (get_step_time_in_range (Some (trade_step m)) None m)
      as (x & y & Hx & Hy & Hok & Hbad).
    { rewrite Hi. lia. }
    { rewrite Hi. lia. }
    rewrite Hi in Hx, Hy.
    destruct (Z.ltb_spec (end_index m + 1) 0); [lia|].
    destruct (Z.ltb_spec (end_index m + 1 + 1) 0); [lia|].
    replace (end_index m + 1 + 1) with (end_index m + 2) in Hy by lia.
    exists x, y. auto.
  - apply get_step_time_out_of_range. rewrite Hi. lia.
Qed.

Lemma get_cur_step_time_after_last_step_witness :
  trade_step (set_trade_step 5 Daily.five_days_state) =
    trade_len (set_trade_step 5 Daily.five_days_state) /\
  trade_len (set_trade_step 5 Daily.five_days_state) = 5 - 1 + 1 /\
  0 <= 5 + 1 /\
  (5 + 2 < Z.of_nat (length (_calendar (set_trade_step 5 Daily.five_days_state))) ->
   exists x y,
     _calendar (set_trade_step 5 Daily.five_days_state) !! Z.to_nat (5 + 1) =
       Some x /\
     _calendar (set_trade_step 5 Daily.five_days_state) !! Z.to_nat (5 + 2) =
       Some y /\
     (Timestamp_min <= y - Timedelta_seconds 1 <= Timestamp_max ->
      get_cur_step_time (set_trade_step 5 Daily.five_days_state) =
        (Ok (x, y - Timedelta_seconds 1),
         set_trade_step 5 Daily.five_days_state)) /\
     (~ (Timestamp_min <= y - Timedelta_seconds 1 <= Timestamp_max) ->
      get_cur_step_time (set_trade_step 5 Daily.five_days_state) =
        (Raise OutOfBoundsDatetime, set_trade_step 5 Daily.five_days_state))).
Proof.
  split; [reflexivity|]. split; [reflexivity|]. split; [lia|].
  apply (get_cur_step_time_after_last_step
           (set_trade_step 5 Daily.five_days_state)); [reflexivity|reflexivity|].
  cbn; lia.
Defined.

(** X4. Stepping moves the current interval to the next bar without a gap:
    the interval that [get_cur_step_time] returns after a [step] opens one
    second after the interval it returned before closed. *)
Theorem current_intervals_adjacent m m' o1 c1 o2 c2 :
  0 <= start_index m + trade_step m ->
  step m = (Ok tt, m') ->
  get_cur_step_time m = (Ok (o1, c1), m) ->
  get_cur_step_time m' = (Ok (o2, c2), m') ->
  o2 = c1 + Timedelta_seconds 1.
Proof.
  intros H0 Hstep H1 H2.
  destruct (Z.lt_ge_cases (trade_step m) (trade_len m)) as [Hlt|Hge].
  - rewrite CalendarFacts.step_running in Hstep by exact Hlt.
    injection Hstep as <-.
    change (get_cur_step_time m)
      with (get_step_time (Some (trade_step m)) (Some 0) m) in H1.
    change (get_cur_step_time (set_trade_step (trade_step m + 1) m))
      with (get_step_time (Some (trade_step m + 1)) (Some 0)
              (set_trade_step (trade_step m + 1) m)) in H2.
    apply get_step_time_returns in H1 as [_ Hc1]; [|exact H0].
    apply get_step_time_returns in H2 as [Ho2 _]; [|cbn; lia].
    cbn [set_trade_step _calendar start_index] in Ho2.
    rewrite Z.add_assoc in Ho2.
    assert (Some o2 = Some (c1 + Timedelta_seconds 1)) as Heq
      by (etransitivity; [symmetry; exact Ho2 | exact Hc1]).
    injection Heq as ->. reflexivity.
  - rewrite CalendarFacts.step_stopped in Hstep by exact Hge. discriminate.
Qed.

Lemma current_intervals_adjacent_witness :
  0 <= start_index Daily.five_days_state + trade_step Daily.five_days_state /\
  step Daily.five_days_state = (Ok tt, set_trade_step 1 Daily.five_days_state) /\
  get_cur_step_time Daily.five_days_state =
    (Ok (Daily.day 1, Daily.day 2 - 1000000000), Daily.five_days_state) /\
  get_cur_step_time (set_trade_step 1 Daily.five_days_state) =
    (Ok (Daily.day 2, Daily.day 3 - 1000000000),
     set_trade_step 1 Daily.five_days_state) /\
  Daily.day 2 = Daily.day 2 - 1000000000 + Timedelta_seconds 1.
Proof.
  split; [cbn; lia|]. split; [reflexivity|]. split; [reflexivity|].
  split; [reflexivity|].
  apply (current_intervals_adjacent Daily.five_days_state
           (set_trade_step 1 Daily.five_days_state)
           (Daily.day 1) (Daily.day 2 - 1000000000)
           (Daily.day 2) (Daily.day 3 - 1000000000));
    try reflexivity. cbn; lia.
Defined.

Section ResetEdge.

Variable parse_time : string -> Res Timestamp.
Variable get_resam_calendar :
  string -> Res (list Timestamp * string * option string).
Variable locate_index :
  TimeLike -> TimeLike -> string -> option string ->
  Res (Timestamp * Timestamp * Z * Z).

Local Abbreviation reset := (reset parse_time get_resam_calendar locate_index).
Local Abbreviation init := (init parse_time get_resam_calendar locate_index).
Local Abbreviation timestamp_or_none := (timestamp_or_none parse_time).

Lemma reset_runs f s e m0 st et cal f' fs t1 t2 i j :
  timestamp_or_none s = Ok st ->
  timestamp_or_none e = Ok et ->
  get_resam_calendar f = Ok (cal, f', fs) ->
  locate_index s e f' fs = Ok (t1, t2, i, j) ->
  reset f s e m0 = (Ok tt, mkTCM f st et cal i j (j - i + 1) 0).
Proof.
  intros Hs He Hc Hl.
  unfold Calendar.reset, bind, modify, lift. cbn.
  rewrite Hs, He, Hc, Hl. reflexivity.
Qed.

(** X7. A [reset] that returns leaves nothing of the manager it was called on:
    the same call on any other manager, and the constructor with the same
    arguments, produce the same state. *)
Theorem reset_forgets_previous_state f s e m0 m :
  reset f s e m0 = (Ok tt, m) ->
  (forall m1, reset f s e m1 = (Ok tt, m)) /\ init f s e = Ok m.
Proof.
  intros H. apply CalendarFacts.reset_returns in H.
  destruct H as (st & et & cal & f' & fs & t1 & t2 & i & j
                 & Hs & He & Hc & Hl & ->).
  assert (Hall : forall m1, reset f s e m1 =
                            (Ok tt, mkTCM f st et cal i j (j - i + 1) 0))
    by (intros m1; exact (reset_runs f s e m1 _ _ _ _ _ _ _ _ _ Hs He Hc Hl)).
  split; [exact Hall|]. unfold Calendar.init. rewrite Hall. reflexivity.
Qed.

(** X8. What a [reset] that returns has stored: the frequency as the caller
    wrote it (the frequency the resampling service resolves only goes to the
    location service), the caller's bounds with [None] for a bound that is
    [None] or the empty string (the timestamps the location service returns
    are dropped), and the calendar and indices of the two services. *)
Theorem reset_stores_request f s e m0 m :
  reset f s e m0 = (Ok tt, m) ->
  get_freq m = (Ok f, m) /\
  (exists st et, timestamp_or_none s = Ok st /\ timestamp_or_none e = Ok et /\
                 get_all_time m = (Ok (st, et), m)) /\
  (truthy s = false -> start_time m = None) /\
  (truthy e = false -> end_time m = None) /\
  exists f' fs t1 t2,
    get_resam_calendar f = Ok (_calendar m, f', fs) /\
    locate_index s e f' fs = Ok (t1, t2, start_index m, end_index m).
Proof.
  intros H. apply CalendarFacts.reset_returns in H.
  destruct H as (st & et & cal & f' & fs & t1 & t2 & i & j
                 & Hs & He & Hc & Hl & ->).
  split; [reflexivity|]. split; [exists st, et; auto|].
  split; [|split].
  - intros Ht. unfold Calendar.timestamp_or_none in Hs. rewrite Ht in Hs.
    injection Hs as <-. reflexivity.
  - intros Ht. unfold Calendar.timestamp_or_none in He. rewrite Ht in He.
    injection He as <-. reflexivity.
  - exists f', fs, t1, t2. cbn. auto.
Qed.

(** X9. [reset] is not all-or-nothing.  When the location service raises after
    the resampling service has answered, the exception leaves a manager whose
    frequency, bounds and calendar are the new ones while its indices,
    length and cursor are still those of before the call. *)
Theorem reset_interrupted_by_location f s e m0 st et cal f' fs err :
  timestamp_or_none s = Ok st ->
  timestamp_or_none e = Ok et ->
  get_resam_calendar f = Ok (cal, f', fs) ->
  locate_index s e f' fs = Raise err ->
  reset f s e m0 =
    (Raise err, mkTCM f st et cal (start_index m0) (end_index m0)
                      (trade_len m0) (trade_step m0)).
Proof.
  intros Hs He Hc Hl.
  unfold Calendar.reset, bind, modify, lift. cbn.
  rewrite Hs, He, Hc, Hl. reflexivity.
Qed.

(** X10. Without a range limit on the decision, the range that
    [get_start_end_idx] returns for a freshly reset manager is the located
    range itself: its first step is the bar at [start_index], its last step
    the bar at [end_index], and it counts [trade_len] steps. *)
Theorem fallback_range_is_located_range f s e m0 m d msg :
  reset f s e m0 = (Ok tt, m) ->
  get_range_limit d = Raise (NotImplementedError msg) ->
  exists a b,
    get_start_end_idx d m = (Ok (a, b), m) /\
    start_index m + a = start_index m /\
    start_index m + b = end_index m /\
    b - a + 1 = trade_len m.
Proof.
  intros H Hd. apply CalendarFacts.reset_returns in H.
  destruct H as (st & et & cal & f' & fs & t1 & t2 & i & j & _ & _ & _ & _ & ->).
  exists 0, (j - i + 1 - 1). split.
  - unfold get_start_end_idx, try_except, lift. rewrite Hd. reflexivity.
  - cbn. lia.
Qed.

End ResetEdge.

Lemma reset_forgets_previous_state_witness :
  reset Daily.parse_time Daily.get_resam_calendar Daily.locate_index
        "day" (TimeStamp (Daily.day 1)) (TimeStamp (Daily.day 5))
        Daily.inverted_state = (Ok tt, Daily.five_days_state) /\
  (forall m1,
     reset Daily.parse_time Daily.get_resam_calendar Daily.locate_index
           "day" (TimeStamp (Daily.day 1)) (TimeStamp (Daily.day 5)) m1 =
       (Ok tt, Daily.five_days_state)) /\
  Daily.five_days = Ok Daily.five_days_state.
Proof.
  split; [reflexivity|].
  apply (reset_forgets_previous_state Daily.parse_time
           Daily.get_resam_calendar Daily.locate_index "day"
           (TimeStamp (Daily.day 1)) (TimeStamp (Daily.day 5))
           Daily.inverted_state Daily.five_days_state).
  reflexivity.
Defined.

Lemma reset_stores_request_witness :
  reset Daily.parse_time Daily.get_resam_calendar Daily.locate_index
        "day" (TimeStamp (Daily.day 1)) (TimeStamp (Daily.day 5)) unset =
    (Ok tt, Daily.five_days_state) /\
  get_freq Daily.five_days_state = (Ok "day", Daily.five_days_state).
Proof.
  split; [reflexivity|].
  apply (reset_stores_request Daily.parse_time Daily.get_resam_calendar
           Daily.locate_index "day" (TimeStamp (Daily.day 1))
           (TimeStamp (Daily.day 5)) unset Daily.five_days_state).
  reflexivity.
Defined.

Lemma reset_interrupted_by_location_witness :
  timestamp_or_none Daily.parse_time (TimeStamp (Daily.day 9)) =
    Ok (Some (Daily.day 9)) /\
  Daily.get_resam_calendar "day" = Ok (Daily.bars, "day", None) /\
  Daily.locate_index (TimeStamp (Daily.day 9)) (TimeStamp (Daily.day 9))
                     "day" None = Raise IndexError /\
  reset Daily.parse_time Daily.get_resam_calendar Daily.locate_index
        "day" (TimeStamp (Daily.day 9)) (TimeStamp (Daily.day 9))
        (set_trade_step 3 Daily.five_days_state) =
    (Raise IndexError,
     mkTCM "day" (Some (Daily.day 9)) (Some (Daily.day 9)) Daily.bars 1 5 5 3).
Proof.
  split; [reflexivity|]. split; [reflexivity|]. split; [reflexivity|].
  apply (reset_interrupted_by_location Daily.parse_time
           Daily.get_resam_calendar Daily.locate_index "day"
           (TimeStamp (Daily.day 9)) (TimeStamp (Daily.day 9))
           (set_trade_step 3 Daily.five_days_state)
           (Some (Daily.day 9)) (Some (Daily.day 9)) Daily.bars
           "day" None); reflexivity.
Defined.

Lemma fallback_range_is_located_range_witness :
  reset Daily.parse_time Daily.get_resam_calendar Daily.locate_index
        "day" (TimeStamp (Daily.day 1)) (TimeStamp (Daily.day 5)) unset =
    (Ok tt, Daily.five_days_state) /\
  get_range_limit (mkDecision (Raise (NotImplementedError "get_range_limit"))) =
    Raise (NotImplementedError "get_range_limit") /\
  exists a b,
    get_start_end_idx
      (mkDecision (Raise (NotImplementedError "get_range_limit")))
      Daily.five_days_state = (Ok (a, b), Daily.five_days_state) /\
    start_index Daily.five_days_state + a = start_index Daily.five_days_state /\
    start_index Daily.five_days_state + b = end_index Daily.five_days_state /\
    b - a + 1 = trade_len Daily.five_days_state.
Proof.
  split; [reflexivity|]. split; [reflexivity|].
  apply (fallback_range_is_located_range Daily.parse_time
           Daily.get_resam_calendar Daily.locate_index "day"
           (TimeStamp (Daily.day 1)) (TimeStamp (Daily.day 5)) unset
           Daily.five_days_state
           (mkDecision (Raise (NotImplementedError "get_range_limit")))
           "get_range_limit"); reflexivity.
Defined.

End CalendarEdge.

(** * Further properties of the registries *)

Module RegistryLaws.

Import Registry Levels.

Section Loop.

Variable supp : list string.
Variable self : loc.

Local Abbreviation body :=
  (fun '(k, v) => if bool_decide (k ∈ supp) then setattr self k v
                  else warnings_warn (ignored_msg k)).

(** The warnings of the loop, in order, and the names it leaves bound. *)
Lemma reset_loop_names (kwargs : PyDict) : forall w, exists w',
  for_each kwargs body w = (Ok tt, w') /\
  warned w' =
    warned w ++ (ignored_msg <$> filter (fun k => k ∉ supp) kwargs.*1) /\
  (forall k, is_Some (attrs (heap w self) !! k) ->
             is_Some (attrs (heap w' self) !! k)) /\
  (forall k, is_Some (attrs (heap w' self) !! k) ->
             is_Some (attrs (heap w self) !! k) \/ (k ∈ supp /\ k ∈ kwargs.*1)).
Proof.
  induction kwargs as [|[k0 v0] rest IH]; intros w.
  - exists w. cbn. rewrite app_nil_r. repeat split; auto.
  - cbn [for_each]. unfold bind at 1.
    destruct (bool_decide_reflect (k0 ∈ supp)) as [Hin|Hout].
    + set (w1 := store self (mkInstance (cls (heap w self))
                               (<[k0 := v0]> (attrs (heap w self)))) w).
      change (setattr self k0 v0 w) with (Ok tt, w1).
      destruct (IH w1) as (w' & Hrun & Hwarn & Hkeep & Hdom).
      exists w'. split; [exact Hrun|]. split; [|split].
      * rewrite Hwarn. cbn [fmap list_fmap fst].
        rewrite filter_cons_False by (intros H; apply H; exact Hin).
        reflexivity.
      * intros k Hk. apply Hkeep. subst w1.
        rewrite RegistryFacts.heap_store_same. cbn.
        destruct (decide (k0 = k)) as [->|Hne].
        -- rewrite lookup_insert_eq. eauto.
        -- rewrite lookup_insert_ne by exact Hne. exact Hk.
      * intros k Hk. apply Hdom in Hk as [Hk|[Hk Hr]].
        -- subst w1. rewrite RegistryFacts.heap_store_same in Hk. cbn in Hk.
           destruct (decide (k0 = k)) as [->|Hne].
           ++ right. split; [exact Hin|]. cbn. apply elem_of_cons. auto.
           ++ rewrite lookup_insert_ne in Hk by exact Hne. auto.
        -- right. split; [exact Hk|]. cbn. apply elem_of_cons. auto.
    + set (w1 := mkWorld (heap w) (warned w ++ [ignored_msg k0])).
      change (warnings_warn (ignored_msg k0) w) with (Ok tt, w1).
      destruct (IH w1) as (w' & Hrun & Hwarn & Hkeep & Hdom).
      exists w'. split; [exact Hrun|]. split; [|split].
      * rewrite Hwarn. cbn [fmap list_fmap fst].
        rewrite filter_cons_True by exact Hout.
        subst w1. cbn. rewrite <- app_assoc. reflexivity.
      * exact Hkeep.
      * intros k Hk. apply Hdom in Hk as [Hk|[Hk Hr]]; [auto|].
        right. split; [exact Hk|]. cbn. apply elem_of_cons. auto.
Qed.

End Loop.

Lemma filter_all_supported (supp keys : list string) :
  (forall k, k ∈ keys -> k ∈ supp) -> filter (fun k => k ∉ supp) keys = [].
Proof.
  induction keys as [|k keys IH]; intros H; [reflexivity|].
  rewrite filter_cons_False.
  - apply IH. intros k' Hk'. apply H, elem_of_cons. auto.
  - intros Hno. apply Hno, H, elem_of_cons. auto.
Qed.

Section Laws.

Variable class_getattr : InfraClass -> loc -> string -> option PyObj.

Local Abbreviation lookup_attr := (lookup_attr class_getattr).
Local Abbreviation hasattr := (hasattr class_getattr).
Local Abbreviation get := (get class_getattr).
Local Abbreviation has := (has class_getattr).
Local Abbreviation update := (update class_getattr).

(** X11. [get] never raises and never changes a registry, whatever the name and
    whatever the class (the supported names are not consulted): a name that
    attribute lookup finds is returned without a warning, any other name
    gives [None] and one warning. *)
Theorem get_never_raises self k w :
  exists v w',
    get self k w = (Ok v, w') /\
    heap w' = heap w /\
    (lookup_attr w self k = Some v /\ w' = w \/
     lookup_attr w self k = None /\ v = PyNone /\
     warned w' = warned w ++ [not_found_msg k]).
Proof.
  destruct (lookup_attr w self k) as [v|] eqn:Hk.
  - exists v, w. split; [apply RegistryFacts.get_found, Hk|]. auto.
  - exists PyNone, (mkWorld (heap w) (warned w ++ [not_found_msg k])).
    split; [|auto].
    unfold Registry.get, bind. rewrite RegistryFacts.hasattr_eq, Hk.
    rewrite bool_decide_eq_false_2 by (intros [? ?]; discriminate).
    reflexivity.
Qed.

(** X12. [has] answers true exactly for a supported name that attribute lookup
    finds, and changes nothing; when it answers true, [get] returns the
    value without a warning. *)
Theorem has_iff_supported_and_held self k supp w :
  support_of (cls (heap w self)) = Ok supp ->
  exists b,
    has self k w = (Ok b, w) /\
    (b = true <-> k ∈ supp /\ is_Some (lookup_attr w self k)) /\
    (b = true -> exists v, get self k w = (Ok v, w)).
Proof.
  intros Hs. unfold Registry.has. unfold bind at 1.
  rewrite RegistryFacts.get_support_infra_eq, Hs.
  destruct (bool_decide_reflect (k ∈ supp)) as [Hin|Hout].
  - unfold bind. rewrite RegistryFacts.hasattr_eq.
    destruct (lookup_attr w self k) as [v|] eqn:Hk.
    + rewrite bool_decide_eq_true_2 by eauto. exists true.
      split; [reflexivity|]. split; [split; eauto|].
      intros _. exists v. apply RegistryFacts.get_found, Hk.
    + rewrite bool_decide_eq_false_2 by (intros [? ?]; discriminate).
      exists false. split; [reflexivity|]. split; [|discriminate].
      split; [discriminate|]. intros [_ [? ?]]. discriminate.
  - exists false. split; [reflexivity|]. split; [|discriminate].
    split; [discriminate|]. intros [? _]. contradiction.
Qed.

(** X13. [reset_infra] only ever adds or replaces: it leaves every other
    registry and every class as they are, keeps every name that was bound,
    binds no name outside the supported ones it was given, leaves the value
    of every other name alone, and warns once, in order, for each
    unsupported name. *)
Theorem reset_infra_frame self kwargs supp w :
  support_of (cls (heap w self)) = Ok supp ->
  exists w',
    reset_infra self kwargs w = (Ok tt, w') /\
    (forall l, cls (heap w' l) = cls (heap w l)) /\
    (forall l, l <> self -> heap w' l = heap w l) /\
    (forall k, is_Some (attrs (heap w self) !! k) ->
               is_Some (attrs (heap w' self) !! k)) /\
    (forall k, is_Some (attrs (heap w' self) !! k) ->
               is_Some (attrs (heap w self) !! k) \/
               (k ∈ supp /\ k ∈ kwargs.*1)) /\
    (forall k, k ∉ supp \/ k ∉ kwargs.*1 ->
               attrs (heap w' self) !! k = attrs (heap w self) !! k) /\
    warned w' =
      warned w ++ (ignored_msg <$> filter (fun k => k ∉ supp) kwargs.*1).
Proof.
  intros Hs. rewrite (RegistryFacts.reset_infra_loop _ _ supp) by exact Hs.
  destruct (RegistryFacts.reset_loop supp self kwargs w)
    as (w' & Hrun & Hcls & Hoth & Hsame & _ & _ & _).
  destruct (reset_loop_names supp self kwargs w)
    as (w'' & Hrun' & Hwarn & Hkeep & Hdom).
  assert (w'' = w') as -> by congruence.
  exists w'. repeat split; auto.
Qed.

Lemma infra_dict_keys other w : forall supp acc d,
  infra_dict_of class_getattr other supp acc w = (Ok d, w) ->
  forall k, k ∈ d.*1 -> k ∈ acc.*1 \/ k ∈ supp.
Proof.
  induction supp as [|x rest IH]; intros acc d Hrun k Hk.
  - cbn in Hrun. injection Hrun as <-. auto.
  - cbn [infra_dict_of] in Hrun. unfold bind at 1 in Hrun.
    rewrite RegistryFacts.hasattr_eq in Hrun.
    destruct (lookup_attr w other x) as [v|] eqn:Hx.
    + rewrite bool_decide_eq_true_2 in Hrun by eauto.
      unfold bind at 1 in Hrun. unfold Registry.getattr at 1 in Hrun.
      unfold bind, gets in Hrun. rewrite Hx in Hrun.
      cbv beta iota in Hrun. unfold ret at 1 in Hrun.
      destruct (IH _ _ Hrun k Hk) as [H|H].
      * apply RegistryFacts.dict_set_keys in H as [->|H]; [|auto].
        right. apply elem_of_cons. auto.
      * right. apply elem_of_cons. auto.
    + rewrite bool_decide_eq_false_2 in Hrun by (intros [? ?]; discriminate).
      destruct (IH _ _ Hrun k Hk) as [H|H]; [auto|].
      right. apply elem_of_cons. auto.
Qed.

(** How [update] runs: the dict display of the slots [b] holds, then the
    loop of [reset_infra] on [a]. *)
Lemma update_runs a b suppa suppb w :
  support_of (cls (heap w a)) = Ok suppa ->
  support_of (cls (heap w b)) = Ok suppb ->
  exists d w',
    update a b w = (Ok tt, w') /\
    for_each d (fun '(k, v) => if bool_decide (k ∈ suppa) then setattr a k v
                               else warnings_warn (ignored_msg k)) w
      = (Ok tt, w') /\
    NoDup d.*1 /\
    (forall k v, (k, v) ∈ d -> lookup_attr w b k = Some v) /\
    (forall k, k ∈ d.*1 <-> k ∈ suppb /\ is_Some (lookup_attr w b k)).
Proof.
  intros Ha Hb.
  destruct (RegistryFacts.infra_dict_spec class_getattr b w suppb [])
    as (d & Hd & Hnd & Hval & Hkeys).
  { apply NoDup_nil_2. }
  { intros k v H. apply elem_of_nil in H. contradiction. }
  destruct (RegistryFacts.reset_loop suppa a d w) as (w' & Hrun & _).
  exists d, w'. split; [|split; [exact Hrun|]].
  - unfold Registry.update. unfold bind at 1.
    rewrite RegistryFacts.get_support_infra_eq, Hb. unfold bind at 1.
    rewrite Hd. rewrite (RegistryFacts.reset_infra_loop _ _ suppa) by exact Ha.
    exact Hrun.
  - split; [exact Hnd|]. split; [exact Hval|]. intros k. split.
    + intros Hk. split.
      * destruct (infra_dict_keys b w suppb [] d Hd k Hk) as [H|H]; [|exact H].
        apply elem_of_nil in H. contradiction.
      * apply list_elem_of_fmap in Hk as ([k' v] & -> & Hin).
        apply Hval in Hin. cbn. eauto.
    + intros [Hk Hheld]. apply Hkeys. auto.
Qed.

(** X14. [a.update(b)] never clears anything and never touches [b]: other
    registries (including [b], when it is not [a] itself) and all classes
    stay as they are, every name bound in [a] stays bound, and a name that
    [a] does not support, or that [b] does not support or hold, keeps its
    value in [a]. *)
Theorem update_frame a b suppa suppb w :
  support_of (cls (heap w a)) = Ok suppa ->
  support_of (cls (heap w b)) = Ok suppb ->
  exists w',
    update a b w = (Ok tt, w') /\
    (forall l, cls (heap w' l) = cls (heap w l)) /\
    (forall l, l <> a -> heap w' l = heap w l) /\
    (forall k, is_Some (attrs (heap w a) !! k) ->
               is_Some (attrs (heap w' a) !! k)) /\
    (forall k, k ∉ suppa \/ k ∉ suppb \/ lookup_attr w b k = None ->
               attrs (heap w' a) !! k = attrs (heap w a) !! k).
Proof.
  intros Ha Hb.
  destruct (update_runs a b suppa suppb w Ha Hb)
    as (d & w' & Hup & Hrun & _ & _ & Hkeys).
  destruct (RegistryFacts.reset_loop suppa a d w)
    as (w1 & Hrun1 & Hcls & Hoth & Hsame & _ & _ & _).
  destruct (reset_loop_names suppa a d w) as (w2 & Hrun2 & _ & Hkeep & _).
  assert (w1 = w') as -> by congruence.
  assert (w2 = w') as -> by congruence.
  exists w'. repeat split; auto.
  intros k Hk. apply Hsame. destruct Hk as [Hk|[Hk|Hk]]; [auto| |].
  - right. rewrite Hkeys. tauto.
  - right. rewrite Hkeys, Hk. intros [_ [? ?]]. discriminate.
Qed.

(** X15. The registry keeps its own rule: if every name bound in [a] is a
    supported one, this is still so after [reset_infra] with any keyword
    arguments and after [update] from any registry. *)
Theorem only_supported_names_stored a suppa w :
  support_of (cls (heap w a)) = Ok suppa ->
  (forall k, is_Some (attrs (heap w a) !! k) -> k ∈ suppa) ->
  (forall kwargs, exists w',
     reset_infra a kwargs w = (Ok tt, w') /\
     forall k, is_Some (attrs (heap w' a) !! k) -> k ∈ suppa) /\
  (forall b suppb, support_of (cls (heap w b)) = Ok suppb -> exists w',
     update a b w = (Ok tt, w') /\
     forall k, is_Some (attrs (heap w' a) !! k) -> k ∈ suppa).
Proof.
  intros Ha Hinv. split.
  - intros kwargs.
    rewrite (RegistryFacts.reset_infra_loop _ _ suppa) by exact Ha.
    destruct (reset_loop_names suppa a kwargs w)
      as (w' & Hrun & _ & _ & Hdom).
    exists w'. split; [exact Hrun|]. intros k Hk.
    destruct (Hdom k Hk) as [H|[H _]]; auto.
  - intros b suppb Hb.
    destruct (update_runs a b suppa suppb w Ha Hb)
      as (d & w' & Hup & Hrun & _).
    destruct (reset_loop_names suppa a d w) as (w2 & Hrun2 & _ & _ & Hdom).
    assert (w2 = w') as -> by congruence.
    exists w'. split; [exact Hup|]. intros k Hk.
    destruct (Hdom k Hk) as [H|[H _]]; auto.
Qed.

(** X16. Updating a registry from itself changes nothing that can be observed:
    it returns, warns about nothing, and attribute lookup gives for every
    name what it gave before. *)
Theorem update_from_itself a supp w :
  support_of (cls (heap w a)) = Ok supp ->
  exists w',
    update a a w = (Ok tt, w') /\
    warned w' = warned w /\
    (forall l, l <> a -> heap w' l = heap w l) /\
    (forall k, lookup_attr w' a k = lookup_attr w a k).
Proof.
  intros Ha.
  destruct (update_runs a a supp supp w Ha Ha)
    as (d & w' & Hup & Hrun & Hnd & Hval & Hkeys).
  destruct (RegistryFacts.reset_loop supp a d w)
    as (w1 & Hrun1 & Hcls & Hoth & Hsame & Hset & _ & _).
  destruct (reset_loop_names supp a d w) as (w2 & Hrun2 & Hwarn & _ & _).
  assert (w1 = w') as -> by congruence.
  assert (w2 = w') as -> by congruence.
  exists w'. split; [exact Hup|]. split; [|split; [exact Hoth|]].
  - rewrite Hwarn.
    rewrite filter_all_supported; [apply app_nil_r|].
    intros k Hk. apply Hkeys in Hk as [Hk _]. exact Hk.
  - intros k. unfold Registry.lookup_attr. rewrite Hcls.
    destruct (decide (k ∈ d.*1)) as [Hk|Hk].
    + pose proof Hk as Hk'. apply Hkeys in Hk' as [Hsupp _].
      apply list_elem_of_fmap in Hk as ([k' v] & -> & Hin). cbn in *.
      rewrite (Hset Hnd k' v Hin Hsupp).
      apply Hval in Hin. unfold Registry.lookup_attr in Hin.
      destruct (attrs (heap w a) !! k'); [congruence|].
      symmetry. exact Hin.
    + rewrite Hsame by auto. reflexivity.
Qed.

Lemma has_eq self k supp w :
  support_of (cls (heap w self)) = Ok supp ->
  has self k w =
    (Ok (bool_decide (k ∈ supp) &&
         bool_decide (is_Some (lookup_attr w self k))), w).
Proof.
  intros Hs. unfold Registry.has. unfold bind at 1.
  rewrite RegistryFacts.get_support_infra_eq, Hs.
  destruct (bool_decide (k ∈ supp)); [|reflexivity].
  unfold bind. rewrite RegistryFacts.hasattr_eq.
  destruct (bool_decide (is_Some (lookup_attr w self k))); reflexivity.
Qed.

Lemma supports_disjoint c1 c2 s1 s2 :
  support_of c1 = Ok s1 -> support_of c2 = Ok s2 -> c1 <> c2 ->
  forall k, k ∈ s1 -> k ∉ s2.
Proof.
  intros H1 H2 Hne k.
  destruct c1, c2; try discriminate; try congruence;
    injection H1 as <-; injection H2 as <-;
    rewrite !elem_of_cons, !elem_of_nil;
    intros [->|[->|[]]] [H|[H|[]]]; discriminate.
Qed.

(** X17. The two variants share no slot name, so an [update] between registries
    of different classes copies nothing: every registry is exactly as
    before, and there is one warning for each slot the source holds. *)
Theorem update_across_variants a b suppa suppb w :
  support_of (cls (heap w a)) = Ok suppa ->
  support_of (cls (heap w b)) = Ok suppb ->
  cls (heap w a) <> cls (heap w b) ->
  exists w',
    update a b w = (Ok tt, w') /\
    (forall l, heap w' l = heap w l) /\
    (forall X, X ∈ suppb -> is_Some (lookup_attr w b X) ->
               ignored_msg X ∈ warned w').
Proof.
  intros Ha Hb Hne.
  destruct (update_runs a b suppa suppb w Ha Hb)
    as (d & w' & Hup & Hrun & _ & _ & Hkeys).
  destruct (RegistryFacts.reset_loop suppa a d w)
    as (w1 & Hrun1 & Hcls & Hoth & Hsame & _ & Hwarn & _).
  assert (w1 = w') as -> by congruence.
  exists w'. split; [exact Hup|]. split.
  - intros l. destruct (decide (l = a)) as [->|Hl]; [|auto].
    specialize (Hcls a).
    assert (attrs (heap w' a) = attrs (heap w a)) as Hattrs.
    { apply map_eq. intros k. apply Hsame.
      destruct (decide (k ∈ suppa)) as [Hk|Hk]; [|auto]. right.
      rewrite Hkeys. intros [Hkb _].
      exact (supports_disjoint _ _ _ _ Ha Hb Hne k Hk Hkb). }
    destruct (heap w' a), (heap w a). cbn in *. congruence.
  - intros X HX Hheld. apply Hwarn; [apply Hkeys; auto|].
    intros HXa. exact (supports_disjoint _ _ _ _ Ha Hb Hne X HXa HX).
Qed.

(** X18. Linking a level to the level below it: on a [LevelInfrastructure],
    [set_sub_level_infra(child)] returns without a warning; afterwards
    [get] gives back [child] and [has] is true for [sub_level_infra], and
    every other name, [trade_calendar] included, and every other registry
    is as before. *)
Theorem set_sub_level_infra_links self child w :
  cls (heap w self) = LevelInfrastructure ->
  exists w',
    set_sub_level_infra self child w = (Ok tt, w') /\
    get self "sub_level_infra" w' = (Ok child, w') /\
    has self "sub_level_infra" w' = (Ok true, w') /\
    warned w' = warned w /\
    (forall k, k <> "sub_level_infra" ->
               attrs (heap w' self) !! k = attrs (heap w self) !! k) /\
    (forall l, l <> self -> heap w' l = heap w l).
Proof.
  intros Hc.
  set (o := mkInstance LevelInfrastructure
              (<["sub_level_infra" := child]> (attrs (heap w self)))).
  assert (Hrun : set_sub_level_infra self child w = (Ok tt, store self o w)).
  { unfold set_sub_level_infra, reset_infra. unfold bind at 1.
    rewrite RegistryFacts.get_support_infra_eq, Hc. cbn [support_of lift].
    cbn [for_each]. unfold bind, setattr, modify, ret.
    rewrite bool_decide_eq_true_2
      by (apply elem_of_cons; right; apply elem_of_cons; left; reflexivity).
    cbv beta iota. rewrite Hc. reflexivity. }
  exists (store self o w). split; [exact Hrun|].
  assert (Hheap : heap (store self o w) self = o)
    by apply RegistryFacts.heap_store_same.
  assert (Hval : attrs (heap (store self o w) self) !! "sub_level_infra"
                 = Some child).
  { rewrite Hheap. subst o. cbn. apply lookup_insert_eq. }
  split; [apply RegistryFacts.get_stored, Hval|]. split.
  - rewrite (has_eq _ _ ["trade_calendar"; "sub_level_infra"])
      by (rewrite Hheap; reflexivity).
    unfold Registry.lookup_attr. rewrite Hval. reflexivity.
  - split; [reflexivity|]. split.
    + intros k Hk. rewrite Hheap. subst o. cbn.
      apply lookup_insert_ne. congruence.
    + intros l Hl. apply RegistryFacts.heap_store_other, Hl.
Qed.

(** X19. The abstract base class supports nothing it can name.  On an instance
    of [BaseInfrastructure] itself the constructor, [reset_infra] and [has]
    raise [NotImplementedError], and so does [update] with such an instance
    on either side; the store is left as it was.  Only [get] still
    answers. *)
Theorem base_class_is_abstract self w :
  cls (heap w self) = BaseInfrastructure ->
  let err := NotImplementedError "`get_support_infra` is not implemented!" in
  (forall kwargs, __init__ self kwargs w = (Raise err, w)) /\
  (forall kwargs, reset_infra self kwargs w = (Raise err, w)) /\
  (forall k, has self k w = (Raise err, w)) /\
  (forall other, update other self w = (Raise err, w)) /\
  (forall other supp, support_of (cls (heap w other)) = Ok supp ->
                      update self other w = (Raise err, w)) /\
  (forall k, exists v w', get self k w = (Ok v, w')).
Proof.
  intros Hc err.
  assert (Hs : support_of (cls (heap w self)) = Raise err)
    by (rewrite Hc; reflexivity).
  assert (Hreset : forall kwargs, reset_infra self kwargs w = (Raise err, w))
    by (intros; apply RegistryFacts.reset_infra_without_support, Hs).
  split; [exact Hreset|]. split; [exact Hreset|]. split; [|split; [|split]].
  - intros k. unfold Registry.has. unfold bind at 1.
    rewrite RegistryFacts.get_support_infra_eq, Hs. reflexivity.
  - intros other. unfold Registry.update. unfold bind at 1.
    rewrite RegistryFacts.get_support_infra_eq, Hs. reflexivity.
  - intros other supp Ho.
    destruct (RegistryFacts.infra_dict_spec class_getattr other w supp [])
      as (d & Hd & _).
    { apply NoDup_nil_2. }
    { intros k v H. apply elem_of_nil in H. contradiction. }
    unfold Registry.update. unfold bind at 1.
    rewrite RegistryFacts.get_support_infra_eq, Ho. unfold bind at 1.
    rewrite Hd. apply Hreset.
  - intros k. destruct (lookup_attr w self k) as [v|] eqn:Hk.
    + exists v, w. apply RegistryFacts.get_found, Hk.
    + eexists _, _. unfold Registry.get, bind.
      rewrite RegistryFacts.hasattr_eq, Hk.
      rewrite bool_decide_eq_false_2 by (intros [? ?]; discriminate).
      reflexivity.
Qed.

(** X20. Construction.  On a new instance (empty [__dict__]) of a class whose
    slot names are not class attributes, the constructor returns; then
    [has] is true exactly for the supported names among the keyword
    arguments, the instance holds no other name, and [get] returns the
    argument given for each supported name. *)
Theorem init_holds_supported_arguments self kwargs supp w :
  support_of (cls (heap w self)) = Ok supp ->
  attrs (heap w self) = ∅ ->
  (forall k, k ∈ supp -> class_getattr (cls (heap w self)) self k = None) ->
  NoDup kwargs.*1 ->
  exists w',
    __init__ self kwargs w = (Ok tt, w') /\
    (forall k, has self k w' = (Ok true, w') <-> k ∈ supp /\ k ∈ kwargs.*1) /\
    (forall k, is_Some (attrs (heap w' self) !! k) <->
               k ∈ supp /\ k ∈ kwargs.*1) /\
    (forall k v, (k, v) ∈ kwargs -> k ∈ supp ->
                 get self k w' = (Ok v, w')).
Proof.
  intros Hs Hnew Hclass Hnd. unfold __init__.
  rewrite (RegistryFacts.reset_infra_loop _ _ supp) by exact Hs.
  destruct (RegistryFacts.reset_loop supp self kwargs w)
    as (w' & Hrun & Hcls & _ & _ & Hset & _ & _).
  destruct (reset_loop_names supp self kwargs w)
    as (w2 & Hrun2 & _ & _ & Hdom).
  assert (w2 = w') as -> by congruence.
  assert (Hbound : forall k, is_Some (attrs (heap w' self) !! k) <->
                             k ∈ supp /\ k ∈ kwargs.*1).
  { intros k. split.
    - intros Hk. destruct (Hdom k Hk) as [H|H]; [|exact H].
      rewrite Hnew, lookup_empty in H. destruct H; discriminate.
    - intros [Hk Hin]. apply list_elem_of_fmap in Hin as ([k' v] & -> & Hin).
      cbn in *. rewrite (Hset Hnd k' v Hin Hk). eauto. }
  exists w'. split; [exact Hrun|]. split; [|split; [exact Hbound|]].
  - intros k. rewrite (has_eq _ _ supp) by (rewrite Hcls; exact Hs).
    rewrite <- Hbound. split.
    + intros H. injection H as H. apply andb_prop in H as [H1 H2].
      apply bool_decide_eq_true in H1, H2.
      unfold Registry.lookup_attr in H2.
      destruct (attrs (heap w' self) !! k) eqn:Hk; [eauto|].
      rewrite Hcls, Hclass in H2 by exact H1. destruct H2; discriminate.
    + intros Hk. pose proof Hk as Hk'. apply Hbound in Hk' as [Hsupp _].
      do 2 f_equal. apply andb_true_intro. split.
      * apply bool_decide_eq_true. exact Hsupp.
      * apply bool_decide_eq_true. unfold Registry.lookup_attr.
        destruct Hk as [v ->]. eauto.
  - intros k v Hin Hk. apply RegistryFacts.get_stored.
    apply (Hset Hnd k v Hin Hk).
Qed.

End Laws.

Local Open Scope positive_scope.

Lemma has_iff_supported_and_held_witness :
  support_of (cls (heap Desk.world 1)) = Ok ["trade_account"; "trade_exchange"] /\
  has Desk.class_getattr 1 "trade_account" Desk.world = (Ok true, Desk.world) /\
  has Desk.class_getattr 1 "trade_exchange" Desk.world = (Ok false, Desk.world) /\
  has Desk.class_getattr 1 "get" Desk.world = (Ok false, Desk.world) /\
  exists b,
    has Desk.class_getattr 1 "trade_account" Desk.world = (Ok b, Desk.world) /\
    (b = true <->
     "trade_account" ∈ ["trade_account"; "trade_exchange"] /\
     is_Some (lookup_attr Desk.class_getattr Desk.world 1 "trade_account")) /\
    (b = true ->
     exists v, get Desk.class_getattr 1 "trade_account" Desk.world =
                 (Ok v, Desk.world)).
Proof.
  split; [reflexivity|]. split; [reflexivity|]. split; [reflexivity|].
  split; [reflexivity|].
  apply (has_iff_supported_and_held Desk.class_getattr 1 "trade_account"
           ["trade_account"; "trade_exchange"] Desk.world).
  reflexivity.
Defined.

Lemma reset_infra_frame_witness :
  support_of (cls (heap Desk.world 1)) = Ok ["trade_account"; "trade_exchange"] /\
  exists w',
    reset_infra 1 [("trade_exchange", PyRef 11); ("trade_calendar", PyRef 12)]
                Desk.world = (Ok tt, w') /\
    warned w' = ["trade_calendar is ignored in `reset_infra`!"] /\
    attrs (heap w' 1) !! "trade_account" = Some (PyRef 10).
Proof.
  split; [reflexivity|].
  destruct (reset_infra_frame 1
              [("trade_exchange", PyRef 11); ("trade_calendar", PyRef 12)]
              ["trade_account"; "trade_exchange"] Desk.world)
    as (w' & Hrun & _); [reflexivity|].
  exists w'. split; [exact Hrun|].
  vm_compute in Hrun. injection Hrun as <-. split; reflexivity.
Defined.

Lemma update_frame_witness :
  support_of (cls (heap Desk.world 1)) = Ok ["trade_account"; "trade_exchange"] /\
  support_of (cls (heap Desk.world 3)) = Ok ["trade_account"; "trade_exchange"] /\
  exists w',
    update Desk.class_getattr 1 3 Desk.world = (Ok tt, w') /\
    attrs (heap w' 1) !! "trade_account" = Some (PyRef 10).
Proof.
  split; [reflexivity|]. split; [reflexivity|].
  destruct (update_frame Desk.class_getattr 1 3
              ["trade_account"; "trade_exchange"]
              ["trade_account"; "trade_exchange"] Desk.world)
    as (w' & Hrun & _ & _ & _ & Hsame); [reflexivity|reflexivity|].
  exists w'. split; [exact Hrun|].
  rewrite Hsame; [reflexivity|]. right. right. reflexivity.
Defined.

Lemma only_supported_names_stored_witness :
  support_of (cls (heap Desk.world 1)) = Ok ["trade_account"; "trade_exchange"] /\
  (forall k, is_Some (attrs (heap Desk.world 1) !! k) ->
             k ∈ ["trade_account"; "trade_exchange"]) /\
  exists w',
    reset_infra 1 [("trade_calendar", PyRef 12)] Desk.world = (Ok tt, w') /\
    forall k, is_Some (attrs (heap w' 1) !! k) ->
              k ∈ ["trade_account"; "trade_exchange"].
Proof.
  assert (Hinv : forall k, is_Some (attrs (heap Desk.world 1) !! k) ->
                           k ∈ ["trade_account"; "trade_exchange"]).
  { intros k [v Hk]. change (attrs (heap Desk.world 1))
      with ({[ "trade_account" := PyRef 10 ]} : gmap string PyObj) in Hk.
    apply lookup_singleton_Some in Hk as [<- _].
    apply elem_of_cons. left. reflexivity. }
  split; [reflexivity|]. split; [exact Hinv|].
  apply (proj1 (only_supported_names_stored Desk.class_getattr 1
                  ["trade_account"; "trade_exchange"] Desk.world
                  eq_refl Hinv)).
Defined.

Lemma update_from_itself_witness :
  support_of (cls (heap Desk.world 1)) = Ok ["trade_account"; "trade_exchange"] /\
  exists w',
    update Desk.class_getattr 1 1 Desk.world = (Ok tt, w') /\
    warned w' = warned Desk.world /\
    (forall l, l <> 1 -> heap w' l = heap Desk.world l) /\
    (forall k, lookup_attr Desk.class_getattr w' 1 k =
               lookup_attr Desk.class_getattr Desk.world 1 k).
Proof.
  split; [reflexivity|].
  apply (update_from_itself Desk.class_getattr 1
           ["trade_account"; "trade_exchange"] Desk.world).
  reflexivity.
Defined.

Lemma update_across_variants_witness :
  support_of (cls (heap Desk.world 2)) = Ok ["trade_calendar"; "sub_level_infra"] /\
  support_of (cls (heap Desk.world 1)) = Ok ["trade_account"; "trade_exchange"] /\
  cls (heap Desk.world 2) <> cls (heap Desk.world 1) /\
  exists w',
    update Desk.class_getattr 2 1 Desk.world = (Ok tt, w') /\
    (forall l, heap w' l = heap Desk.world l) /\
    (forall X, X ∈ ["trade_account"; "trade_exchange"] ->
               is_Some (lookup_attr Desk.class_getattr Desk.world 1 X) ->
               ignored_msg X ∈ warned w').
Proof.
  split; [reflexivity|]. split; [reflexivity|]. split; [discriminate|].
  apply (update_across_variants Desk.class_getattr 2 1
           ["trade_calendar"; "sub_level_infra"]
           ["trade_account"; "trade_exchange"] Desk.world);
    [reflexivity|reflexivity|discriminate].
Defined.

Lemma set_sub_level_infra_links_witness :
  cls (heap Desk.world 2) = LevelInfrastructure /\
  exists w',
    set_sub_level_infra 2 (PyRef 5) Desk.world = (Ok tt, w') /\
    get Desk.class_getattr 2 "sub_level_infra" w' = (Ok (PyRef 5), w') /\
    has Desk.class_getattr 2 "sub_level_infra" w' = (Ok true, w') /\
    warned w' = warned Desk.world /\
    (forall k, k <> "sub_level_infra" ->
               attrs (heap w' 2) !! k = attrs (heap Desk.world 2) !! k) /\
    (forall l, l <> 2 -> heap w' l = heap Desk.world l).
Proof.
  split; [reflexivity|].
  apply (set_sub_level_infra_links Desk.class_getattr 2 (PyRef 5) Desk.world).
  reflexivity.
Defined.

Lemma base_class_is_abstract_witness :
  cls (heap (infra Floor.store) 9) = BaseInfrastructure /\
  __init__ 9 [("trade_account", PyRef 10)] (infra Floor.store) =
    (Raise (NotImplementedError "`get_support_infra` is not implemented!"),
     infra Floor.store).
Proof.
  split; [reflexivity|].
  apply (proj1 (base_class_is_abstract Desk.class_getattr 9
                  (infra Floor.store) eq_refl)).
Defined.

Lemma init_holds_supported_arguments_witness :
  support_of (cls (heap Desk.world 3)) = Ok ["trade_account"; "trade_exchange"] /\
  attrs (heap Desk.world 3) = ∅ /\
  (forall k, k ∈ ["trade_account"; "trade_exchange"] ->
             Desk.class_getattr (cls (heap Desk.world 3)) 3 k = None) /\
  NoDup [("trade_account", PyRef 10); ("trade_calendar", PyRef 12)].*1 /\
  exists w',
    __init__ 3 [("trade_account", PyRef 10); ("trade_calendar", PyRef 12)]
             Desk.world = (Ok tt, w').
Proof.
  assert (Hclass : forall k, k ∈ ["trade_account"; "trade_exchange"] ->
            Desk.class_getattr (cls (heap Desk.world 3)) 3 k = None).
  { intros k Hk. rewrite !elem_of_cons, elem_of_nil in Hk.
    destruct Hk as [->|[->|[]]]; reflexivity. }
  assert (Hnd : NoDup [("trade_account", PyRef 10);
                       ("trade_calendar", PyRef 12)].*1)
    by (apply (bool_decide_unpack _); vm_compute; exact I).
  split; [reflexivity|]. split; [reflexivity|]. split; [exact Hclass|].
  split; [exact Hnd|].
  destruct (init_holds_supported_arguments Desk.class_getattr 3
              [("trade_account", PyRef 10); ("trade_calendar", PyRef 12)]
              ["trade_account"; "trade_exchange"] Desk.world
              eq_refl eq_refl Hclass Hnd) as (w' & Hrun & _).
  exists w'. exact Hrun.
Defined.

End RegistryLaws.

(** * The calendar behind a level *)

Module LevelLaws.

Import Calendar Registry Levels.

Section Laws.

Variable class_getattr : InfraClass -> loc -> string -> option PyObj.
Variable parse_time : string -> Res Timestamp.
Variable get_resam_calendar :
  string -> Res (list Timestamp * string * option string).
Variable locate_index :
  TimeLike -> TimeLike -> string -> option string ->
  Res (Timestamp * Timestamp * Z * Z).

Local Abbreviation reset := (reset parse_time get_resam_calendar locate_index).
Local Abbreviation init := (init parse_time get_resam_calendar locate_index).
Local Abbreviation reset_cal :=
  (reset_cal class_getattr parse_time get_resam_calendar locate_index).
Local Abbreviation get := (get class_getattr).
Local Abbreviation has := (has class_getattr).
Local Abbreviation lookup_attr := (lookup_attr class_getattr).

Lemma store_eta s : mkStore (infra s) (calendars s) = s.
Proof. destruct s; reflexivity. Qed.

Lemma has_trade_calendar self s :
  cls (heap (infra s) self) = LevelInfrastructure ->
  on_infra (has self "trade_calendar") s =
    (Ok (bool_decide (is_Some (lookup_attr (infra s) self "trade_calendar"))),
     s).
Proof.
  intros Hc. unfold on_infra.
  rewrite (RegistryLaws.has_eq class_getattr self "trade_calendar"
             ["trade_calendar"; "sub_level_infra"])
    by (rewrite Hc; reflexivity).
  rewrite store_eta. reflexivity.
Qed.

(** X21. A level that holds a calendar resets that very object: [reset_cal] has
    the outcome of [reset] on the calendar the slot refers to, the calendar
    at that place is what [reset] made of it (also when [reset] raised part
    of the way), and no registry changes, so the slot, and every other holder
    of the reference, refers to the reset calendar. *)
Theorem reset_cal_resets_in_place new self l f st et m0 r m s :
  cls (heap (infra s) self) = LevelInfrastructure ->
  attrs (heap (infra s) self) !! "trade_calendar" = Some (PyRef l) ->
  calendars s !! l = Some m0 ->
  reset f st et m0 = (r, m) ->
  reset_cal new self f st et s =
    (r, mkStore (infra s) (<[l := m]> (calendars s))).
Proof.
  intros Hc Hslot Hcal Hreset.
  assert (Hl : lookup_attr (infra s) self "trade_calendar" = Some (PyRef l))
    by (unfold Registry.lookup_attr; rewrite Hslot; reflexivity).
  unfold Levels.reset_cal. unfold bind at 1.
  rewrite has_trade_calendar by exact Hc.
  rewrite Hl, bool_decide_eq_true_2 by eauto.
  unfold bind at 1. unfold on_infra at 1.
  rewrite (RegistryFacts.get_found class_getattr _ _ _ _ Hl), store_eta.
  unfold call_reset. rewrite Hcal, Hreset. reflexivity.
Qed.

(** X22. A level that holds no calendar gets a new one: when the constructor
    returns, the new calendar is stored at its own place, the slot refers to
    it, [has] is true, nothing is warned about and no other slot or registry
    changes. *)
Theorem reset_cal_creates new self f st et m s :
  cls (heap (infra s) self) = LevelInfrastructure ->
  lookup_attr (infra s) self "trade_calendar" = None ->
  init f st et = Ok m ->
  exists s',
    reset_cal new self f st et s = (Ok tt, s') /\
    calendars s' = <[new := m]> (calendars s) /\
    on_infra (get self "trade_calendar") s' = (Ok (PyRef new), s') /\
    on_infra (has self "trade_calendar") s' = (Ok true, s') /\
    warned (infra s') = warned (infra s) /\
    (forall k, k <> "trade_calendar" ->
       attrs (heap (infra s') self) !! k = attrs (heap (infra s) self) !! k) /\
    (forall l', l' <> self -> heap (infra s') l' = heap (infra s) l').
Proof.
  intros Hc Hnone Hinit.
  set (o := mkInstance LevelInfrastructure
              (<["trade_calendar" := PyRef new]>
                 (attrs (heap (infra s) self)))).
  set (s' := mkStore (store self o (infra s)) (<[new := m]> (calendars s))).
  assert (Hrun : reset_cal new self f st et s = (Ok tt, s')).
  { unfold Levels.reset_cal. unfold bind at 1.
    rewrite has_trade_calendar by exact Hc.
    rewrite Hnone, bool_decide_eq_false_2 by (intros [? ?]; discriminate).
    unfold bind at 1. unfold new_calendar. rewrite Hinit.
    unfold on_infra, reset_infra. cbn [infra calendars]. unfold bind at 1.
    rewrite RegistryFacts.get_support_infra_eq, Hc. cbn [support_of lift].
    cbn [for_each]. unfold bind, setattr, modify, ret.
    rewrite bool_decide_eq_true_2 by (apply elem_of_cons; left; reflexivity).
    cbv beta iota. rewrite Hc. reflexivity. }
  assert (Hheap : heap (infra s') self = o)
    by apply RegistryFacts.heap_store_same.
  assert (Hval : attrs (heap (infra s') self) !! "trade_calendar"
                 = Some (PyRef new)).
  { rewrite Hheap. subst o. cbn. apply lookup_insert_eq. }
  exists s'. split; [exact Hrun|]. split; [reflexivity|]. split; [|split].
  - unfold on_infra.
    rewrite (RegistryFacts.get_stored class_getattr _ _ _ _ Hval).
    rewrite store_eta. reflexivity.
  - rewrite has_trade_calendar by (rewrite Hheap; reflexivity).
    unfold Registry.lookup_attr. rewrite Hval.
    rewrite bool_decide_eq_true_2 by eauto. reflexivity.
  - split; [reflexivity|]. split.
    + intros k Hk. rewrite Hheap. subst o. cbn.
      apply lookup_insert_ne. congruence.
    + intros l' Hl'. apply RegistryFacts.heap_store_other, Hl'.
Qed.

(** X23. [reset_cal] creates a calendar only for a missing slot.  When the
    constructor raises, nothing at all changes and the level still holds no
    calendar; when the slot is there but holds [None], [has] counts it as
    held and the call raises [AttributeError] instead of filling it. *)
Theorem reset_cal_failures new self f st et s :
  cls (heap (infra s) self) = LevelInfrastructure ->
  (forall e, lookup_attr (infra s) self "trade_calendar" = None ->
             init f st et = Raise e ->
             reset_cal new self f st et s = (Raise e, s)) /\
  (attrs (heap (infra s) self) !! "trade_calendar" = Some PyNone ->
   reset_cal new self f st et s = (Raise (AttributeError "reset"), s)).
Proof.
  intros Hc. split.
  - intros e Hnone Hinit.
    unfold Levels.reset_cal. unfold bind at 1.
    rewrite has_trade_calendar by exact Hc.
    rewrite Hnone, bool_decide_eq_false_2 by (intros [? ?]; discriminate).
    unfold bind at 1. unfold new_calendar. rewrite Hinit. reflexivity.
  - intros Hslot.
    assert (Hl : lookup_attr (infra s) self "trade_calendar" = Some PyNone)
      by (unfold Registry.lookup_attr; rewrite Hslot; reflexivity).
    unfold Levels.reset_cal. unfold bind at 1.
    rewrite has_trade_calendar by exact Hc.
    rewrite Hl, bool_decide_eq_true_2 by eauto.
    unfold bind at 1. unfold on_infra at 1.
    rewrite (RegistryFacts.get_found class_getattr _ _ _ _ Hl), store_eta.
    reflexivity.
Qed.

End Laws.

Local Open Scope positive_scope.

Lemma reset_cal_resets_in_place_witness :
  cls (heap (infra Floor.store) 5) = LevelInfrastructure /\
  attrs (heap (infra Floor.store) 5) !! "trade_calendar" = Some (PyRef 20) /\
  calendars Floor.store !! 20 = Some Daily.five_days_state /\
  reset Daily.parse_time Daily.get_resam_calendar Daily.locate_index
        "day" (TimeStamp (Daily.day 2)) (TimeStamp (Daily.day 3))
        Daily.five_days_state =
    (Ok tt, mkTCM "day" (Some (Daily.day 2)) (Some (Daily.day 3)) Daily.bars
                  2%Z 3%Z 2%Z 0%Z) /\
  reset_cal Desk.class_getattr Daily.parse_time Daily.get_resam_calendar
            Daily.locate_index 30 5 "day"
            (TimeStamp (Daily.day 2)) (TimeStamp (Daily.day 3)) Floor.store =
    (Ok tt,
     mkStore (infra Floor.store)
       (<[20 := mkTCM "day" (Some (Daily.day 2)) (Some (Daily.day 3))
                      Daily.bars 2%Z 3%Z 2%Z 0%Z]> (calendars Floor.store))).
Proof.
  split; [reflexivity|]. split; [reflexivity|]. split; [reflexivity|].
  split; [reflexivity|].
  apply (reset_cal_resets_in_place Desk.class_getattr Daily.parse_time
           Daily.get_resam_calendar Daily.locate_index 30 5 20 "day"
           (TimeStamp (Daily.day 2)) (TimeStamp (Daily.day 3))
           Daily.five_days_state); reflexivity.
Defined.

Lemma reset_cal_creates_witness :
  cls (heap (infra Floor.store) 2) = LevelInfrastructure /\
  lookup_attr Desk.class_getattr (infra Floor.store) 2 "trade_calendar" = None /\
  Daily.five_days = Ok Daily.five_days_state /\
  exists s',
    reset_cal Desk.class_getattr Daily.parse_time Daily.get_resam_calendar
              Daily.locate_index 30 2 "day"
              (TimeStamp (Daily.day 1)) (TimeStamp (Daily.day 5)) Floor.store =
      (Ok tt, s') /\
    calendars s' = <[30 := Daily.five_days_state]> (calendars Floor.store).
Proof.
  split; [reflexivity|]. split; [reflexivity|]. split; [reflexivity|].
  destruct (reset_cal_creates Desk.class_getattr Daily.parse_time
              Daily.get_resam_calendar Daily.locate_index 30 2 "day"
              (TimeStamp (Daily.day 1)) (TimeStamp (Daily.day 5))
              Daily.five_days_state Floor.store eq_refl eq_refl eq_refl)
    as (s' & Hrun & Hcal & _).
  exists s'. split; [exact Hrun | exact Hcal].
Defined.

Lemma reset_cal_failures_witness :
  cls (heap (infra Floor.store) 2) = LevelInfrastructure /\
  lookup_attr Desk.class_getattr (infra Floor.store) 2 "trade_calendar" = None /\
  init Daily.parse_time Daily.get_resam_calendar Daily.locate_index
       "day" (TimeStamp (Daily.day 9)) (TimeStamp (Daily.day 9)) =
    Raise IndexError /\
  reset_cal Desk.class_getattr Daily.parse_time Daily.get_resam_calendar
            Daily.locate_index 30 2 "day"
            (TimeStamp (Daily.day 9)) (TimeStamp (Daily.day 9)) Floor.store =
    (Raise IndexError, Floor.store).
Proof.
  split; [reflexivity|]. split; [reflexivity|]. split; [reflexivity|].
  apply (proj1 (reset_cal_failures Desk.class_getattr Daily.parse_time
                  Daily.get_resam_calendar Daily.locate_index 30 2 "day"
                  (TimeStamp (Daily.day 9)) (TimeStamp (Daily.day 9))
                  Floor.store eq_refl)); reflexivity.
Defined.

End LevelLaws.
